(** * alignmentPolish, src/main.py: region orchestration, sharding, JSON output

    Shallow embedding of [src/main.py].  The modules that main.py imports
    from [modules/] (BamHandler, FastaHandler, CandidateFinder,
    AlleleFinder) are not part of the listed source; they enter the model
    as section variables (pure functions of their arguments), and every
    call main.py makes to them is recorded in an event log.  The file
    system touched by [os.path.exists], [os.mkdir] and [open] is an
    explicit part of the state: paths are resolved component by
    component, as the kernel does, so that "out" and "out/" name the same
    entry, a regular file on the way to a path gives [NotADirectoryError]
    and a missing directory [FileNotFoundError].  A raised exception keeps
    the state reached so far. *)

From Stdlib Require Import String Ascii List ZArith NArith Lia Bool Sorted.
Import ListNotations.
Open Scope Z_scope.
Open Scope string_scope.
Set Warnings "-register-all".

(** ** Python exceptions raised by the modelled code *)

Inductive pyerr :=
| FileExistsError (path : string)
| FileNotFoundError (path : string)
| IsADirectoryError (path : string)
| NotADirectoryError (path : string)
| ZeroDivisionError
| IndexError
| TypeError.

(** ** Strings: [str(int)] and path handling *)

Fixpoint digits_acc (fuel : nat) (n : N) (acc : string) : string :=
  match fuel with
  | O => acc
  | S f =>
      let acc' := String (ascii_of_N (48 + N.modulo n 10)) acc in
      if N.ltb n 10 then acc' else digits_acc f (N.div n 10) acc'
  end.

(** Python's [str] on an [int]. *)
Definition str_Z (z : Z) : string :=
  match z with
  | Zneg p => "-" ++ digits_acc (S (Pos.size_nat p)) (Npos p) ""
  | _ => digits_acc (S (N.size_nat (Z.to_N z))) (Z.to_N z) ""
  end.

Definition slash : ascii := "/"%char.

(** [s[-1]] on a string, [None] where Python raises [IndexError]. *)
Definition last_char (s : string) : option ascii :=
  match rev (list_ascii_of_string s) with
  | [] => None
  | c :: _ => Some c
  end.

Definition has_slash (s : string) : bool :=
  existsb (fun c => Ascii.eqb c slash) (list_ascii_of_string s).

(** ** JSON documents and the Python objects handed to [json.dumps] *)

Inductive json :=
| JNull
| JBool (b : bool)
| JInt (z : Z)
| JStr (s : string)
| JArr (l : list json)
| JObj (kvs : list (string * json)).

(** A Python value as [ComplexEncoder] sees it: [PCustom r] is an object
    whose [reprJSON()] returns [r], [POpaque] an object without it. *)
Inductive pyobj :=
| PNone
| PBool (b : bool)
| PInt (z : Z)
| PStr (s : string)
| PList (l : list pyobj)
| PDict (kvs : list (string * pyobj))
| PCustom (repr : pyobj)
| POpaque (type_name : string).

(** [sorted(dct.items())] for a dict with string keys (keys are distinct,
    so the items compare by key). *)
Fixpoint insert_item {A} (kv : string * A) (l : list (string * A))
  : list (string * A) :=
  match l with
  | [] => [kv]
  | kv' :: r =>
      if String.leb (fst kv) (fst kv') then kv :: l else kv' :: insert_item kv r
  end.

Fixpoint sort_items {A} (l : list (string * A)) : list (string * A) :=
  match l with
  | [] => []
  | kv :: r => insert_item kv (sort_items r)
  end.

(** [json.dumps(obj, cls=ComplexEncoder, sort_keys=True)] as the document
    it emits: list elements in order, dict items sorted by key, objects
    with [reprJSON] replaced by its result ([ComplexEncoder.default]),
    any other object a [TypeError] ([JSONEncoder.default]).  Sorting the
    encoded items instead of the items gives the same document, since the
    order depends on the keys only.  The text layout ([indent=4]) is not
    modelled. *)
Fixpoint encode (o : pyobj) : pyerr + json :=
  match o with
  | PNone => inr JNull
  | PBool b => inr (JBool b)
  | PInt z => inr (JInt z)
  | PStr s => inr (JStr s)
  | PList l =>
      match (fix go (l : list pyobj) : pyerr + list json :=
               match l with
               | [] => inr []
               | x :: r =>
                   match encode x with
                   | inl e => inl e
                   | inr j => match go r with
                              | inl e => inl e
                              | inr js => inr (j :: js)
                              end
                   end
               end) l with
      | inl e => inl e
      | inr js => inr (JArr js)
      end
  | PDict kvs =>
      match (fix go (l : list (string * pyobj)) : pyerr + list (string * json) :=
               match l with
               | [] => inr []
               | (k, v) :: r =>
                   match encode v with
                   | inl e => inl e
                   | inr j => match go r with
                              | inl e => inl e
                              | inr js => inr ((k, j) :: js)
                              end
                   end
               end) kvs with
      | inl e => inl e
      | inr js => inr (JObj (sort_items js))
      end
  | PCustom r => encode r
  | POpaque _ => inl TypeError
  end.

(** ** Events: the calls main.py makes to its collaborators *)

Inductive event :=
| EvOpenBam (path : string)                 (* BamHandler(path) *)
| EvOpenFasta (path : string)               (* FastaHandler(path) *)
| EvGetReads (chr : string) (s e : Z)       (* bam_handler.get_reads *)
| EvGetSequence (chr : string) (s e : Z)    (* fasta_handler.get_sequence *)
| EvGetPileup (chr : string) (s e : Z)      (* get_pileupcolumns_aligned_to_a_region *)
| EvChrLength (chr : string)                (* get_chr_sequence_length *)
| EvSpawn (chr : string) (s e : Z) (json_out : bool)
    (* Process(target=view.parse_region, args=(s, e, json_out)).start() *)
| EvJoin (chr : string) (s e : Z).          (* p.join() on such a process *)

(** Ranges [(start, end)] of the workers started in a log, in order. *)
Definition spawned_ranges (l : list event) : list (Z * Z) :=
  flat_map (fun ev => match ev with EvSpawn _ s e _ => [(s, e)] | _ => [] end) l.

Definition is_join (ev : event) : bool :=
  match ev with EvJoin _ _ _ => true | _ => false end.

(** Calls made while processing the windows of a region. *)
Definition is_window_fetch (ev : event) : bool :=
  match ev with EvGetSequence _ _ _ | EvGetPileup _ _ _ => true | _ => false end.

(** ** Paths as the kernel resolves them *)

(** The component collected so far, if it names an entry: the empty
    components made by repeated or trailing '/' and "." name none. *)
Definition flush (cur : list ascii) : list string :=
  let s := string_of_list_ascii cur in
  if String.eqb s "" || String.eqb s "." then [] else [s].

Fixpoint comps_aux (cur : list ascii) (l : list ascii) : list string :=
  match l with
  | [] => flush cur
  | c :: r =>
      if Ascii.eqb c slash then (flush cur ++ comps_aux [] r)%list
      else comps_aux (cur ++ [c])%list r
  end.

(** The components of a path: "out", "out/", "out//" and "./out" all have
    the components ["out"]. *)
Definition components (p : string) : list string :=
  comps_aux [] (list_ascii_of_string p).

Definition path_abs (p : string) : bool :=
  match p with String c _ => Ascii.eqb c slash | EmptyString => false end.

(** The entry a path names: from the root or from the working directory,
    and through which components.  ".." is an ordinary component here (its
    target lies outside the modelled tree); main.py builds no such path. *)
Definition cpath := (bool * list string)%type.

Definition canon (p : string) : cpath := (path_abs p, components p).

Fixpoint names_eqb (a b : list string) : bool :=
  match a, b with
  | [], [] => true
  | x :: a', y :: b' => String.eqb x y && names_eqb a' b'
  | _, _ => false
  end.

Definition cpath_eqb (a b : cpath) : bool :=
  Bool.eqb (fst a) (fst b) && names_eqb (snd a) (snd b).

(** [p] followed by '/': such a path names a directory. *)
Definition trailing_slash (p : string) : bool :=
  match last_char p with Some c => Ascii.eqb c slash | None => false end.

(** Leading parts [[c1]; [c1; c2]; ...] of a component list, the list itself
    excluded: the directories that lead to the entry. *)
Fixpoint proper_prefixes (l : list string) : list (list string) :=
  match l with
  | [] => []
  | x :: r =>
      match r with
      | [] => []
      | _ :: _ => [x] :: map (cons x) (proper_prefixes r)
      end
  end.

(** ** File system and the state monad with exceptions *)

(** Directories and regular files, each under the path it was created
    with; a file holds [None] once opened for writing and the document
    written to it after the write. *)
Record FS := mkFS { fs_dirs : list string;
                    fs_files : list (string * option json) }.

Record World := mkWorld { w_fs : FS; w_log : list event }.

(** A Python exception propagates with the state it was raised in: the
    calls made and the files created before it stay done. *)
Definition M (A : Type) := World -> (pyerr * World) + (A * World).

Definition ret {A} (a : A) : M A := fun w => inr (a, w).
Definition raise {A} (e : pyerr) : M A := fun w => inl (e, w).
Definition bind {A B} (m : M A) (k : A -> M B) : M B :=
  fun w => match m w with inl ew => inl ew | inr (a, w') => k a w' end.

Notation "x <- m ;; k" := (bind m (fun x => k))
  (at level 61, m at next level, right associativity).
Notation "m ;;; k" := (bind m (fun _ => k))
  (at level 61, right associativity).

Definition emit (ev : event) : M unit :=
  fun w => inr (tt, mkWorld (w_fs w) (w_log w ++ [ev])).

(** A directory is at [c]; the root and the working directory (no
    component) always are. *)
Definition dir_at (fs : FS) (c : cpath) : bool :=
  match snd c with
  | [] => true
  | _ :: _ => existsb (fun d => cpath_eqb (canon d) c) (fs_dirs fs)
  end.

(** A regular file is at [c]. *)
Definition file_at (fs : FS) (c : cpath) : bool :=
  existsb (fun f => cpath_eqb (canon (fst f)) c) (fs_files fs).

(** Path resolution of [p]: the first directory on the way to it that is
    not one, a regular file ([ENOTDIR]) or nothing ([ENOENT]). *)
Definition walk_error (fs : FS) (p : string) : option pyerr :=
  match find (fun cs => negb (dir_at fs (path_abs p, cs)))
             (proper_prefixes (components p)) with
  | None => None
  | Some cs =>
      Some (if file_at fs (path_abs p, cs) then NotADirectoryError p
            else FileNotFoundError p)
  end.

(** [os.path.isdir] *)
Definition is_dir (fs : FS) (p : string) : bool :=
  negb (String.eqb p "") &&
  match walk_error fs p with
  | None => dir_at fs (canon p)
  | Some _ => false
  end.

(** [os.path.exists]: a path ending in '/' exists only as a directory. *)
Definition path_exists (fs : FS) (p : string) : bool :=
  negb (String.eqb p "") &&
  match walk_error fs p with
  | None => dir_at fs (canon p) || (negb (trailing_slash p) && file_at fs (canon p))
  | Some _ => false
  end.

Definition os_path_exists (p : string) : M bool :=
  fun w => inr (path_exists (w_fs w) p, w).

(** [os.mkdir] ([mkdir(2)]): resolution errors first, then
    [FileExistsError] for any entry already at the path. *)
Definition os_mkdir (p : string) : M unit :=
  fun w =>
    let fs := w_fs w in
    if String.eqb p "" then inl (FileNotFoundError p, w)
    else match walk_error fs p with
         | Some e => inl (e, w)
         | None =>
             if dir_at fs (canon p) || file_at fs (canon p)
             then inl (FileExistsError p, w)
             else inr (tt, mkWorld (mkFS (fs_dirs fs ++ [p]) (fs_files fs)) (w_log w))
         end.

Definition set_file (p : string) (c : option json)
    (l : list (string * option json)) : list (string * option json) :=
  (p, c) :: filter (fun f => negb (String.eqb p (fst f))) l.

(** [open(p, 'w')] ([O_WRONLY|O_CREAT|O_TRUNC]): creates or truncates the
    file; a directory, or a path ending in '/', cannot be opened so. *)
Definition open_w (p : string) : M unit :=
  fun w =>
    let fs := w_fs w in
    if String.eqb p "" then inl (FileNotFoundError p, w)
    else match walk_error fs p with
         | Some e => inl (e, w)
         | None =>
             if dir_at fs (canon p) then inl (IsADirectoryError p, w)
             else if trailing_slash p then
               inl (if file_at fs (canon p) then NotADirectoryError p
                    else IsADirectoryError p, w)
             else inr (tt, mkWorld (mkFS (fs_dirs fs) (set_file p None (fs_files fs)))
                                   (w_log w))
         end.

(** [json_file.write(...)] on the handle opened by [open_w p]. *)
Definition write_file (p : string) (doc : json) : M unit :=
  fun w =>
    let fs := w_fs w in
    inr (tt, mkWorld (mkFS (fs_dirs fs) (set_file p (Some doc) (fs_files fs))) (w_log w)).

Definition lift_err {A} (r : pyerr + A) : M A :=
  fun w => match r with inl e => inl (e, w) | inr a => inr (a, w) end.

(** A directory path as main.py builds it: ending in '/'. *)
Definition ends_slash (d : string) : Prop := last_char d = Some slash.

(** Every directory on the way to a path is one. *)
Definition walk_ok (fs : FS) (c : cpath) : bool :=
  forallb (fun cs => dir_at fs (fst c, cs)) (proper_prefixes (snd c)).

(** File system consistency: every entry is reached through directories. *)
Definition fs_wf (fs : FS) : Prop :=
  Forall (fun d => walk_error fs d = None) (fs_dirs fs) /\
  Forall (fun f => walk_error fs (fst f) = None) (fs_files fs).

(** Contents of file [p], if it exists. *)
Definition file_contents (fs : FS) (p : string) : option (option json) :=
  option_map snd (find (fun f => String.eqb p (fst f)) (fs_files fs)).

(** Order of [sorted] on string keys. *)
Definition key_le (a b : string) : Prop := String.leb a b = true.

(** Keys emitted in ascending order in every object of a document. *)
Inductive KeysSorted : json -> Prop :=
| ks_null : KeysSorted JNull
| ks_bool b : KeysSorted (JBool b)
| ks_int z : KeysSorted (JInt z)
| ks_str s : KeysSorted (JStr s)
| ks_arr l : Forall KeysSorted l -> KeysSorted (JArr l)
| ks_obj kvs :
    Sorted key_le (map fst kvs) ->
    Forall (fun kv => KeysSorted (snd kv)) kvs ->
    KeysSorted (JObj kvs).

(** The resources that main.py uses through the modules it imports. *)
Section Collaborators.

Context {Read Pileup RefSeq CandList : Type}.

(** [BamHandler(bam).get_reads(chromosome_name, start, stop)] *)
Variable get_reads : string -> string -> Z -> Z -> list Read.
(** [CandidateFinder(reads, FastaHandler(ref), chr, start, end)] followed by
    [parse_reads], [merge_positions] and [get_candidate_windows]. *)
Variable candidate_windows :
  string -> list Read -> string -> Z -> Z -> list (string * Z * Z).
(** [FastaHandler(ref).get_sequence(chr, start, end)] *)
Variable get_sequence : string -> string -> Z -> Z -> RefSeq.
(** [BamHandler(bam).get_pileupcolumns_aligned_to_a_region(chr, start, end)] *)
Variable get_pileup : string -> string -> Z -> Z -> list Pileup.
(** [AlleleFinder(chr, ws, we, pileup_columns, reference_sequence)] and
    [generate_base_dictionaries], [generate_candidate_allele_list]. *)
Variable allele_candidates : string -> Z -> Z -> list Pileup -> RefSeq -> CandList.
(** A candidate list object as [ComplexEncoder] sees it. *)
Variable cand_obj : CandList -> pyobj.
(** [FastaHandler(ref).get_chr_sequence_length(chr)] *)
Variable chr_length : string -> string -> Z.

(** Class [AllCandidatesInRegion]. *)
Record AllCandidatesInRegion := mkRegion {
  chromosome_name : string;
  start_position : Z;
  end_position : Z;
  all_candidates : list CandList }.

Definition add_candidate_to_list (r : AllCandidatesInRegion) (c : CandList)
  : AllCandidatesInRegion :=
  mkRegion (chromosome_name r) (start_position r) (end_position r)
           (all_candidates r ++ [c]).

Definition reprJSON (r : AllCandidatesInRegion) : pyobj :=
  PDict [("chromosome_name", PStr (chromosome_name r));
         ("start_position", PInt (start_position r));
         ("end_position", PInt (end_position r));
         ("all_candidates", PList (map cand_obj (all_candidates r)))].

(** Class [View]: its two handlers are opened by [__init__]. *)
Record View := mkView {
  v_chromosome_name : string;
  v_bam : string;
  v_ref : string;
  v_output_dir : string }.

Definition View_init (chromosome_name bam_file_path reference_file_path
    output_file_path : string) : M View :=
  emit (EvOpenBam bam_file_path) ;;;
  emit (EvOpenFasta reference_file_path) ;;;
  ret (mkView chromosome_name bam_file_path reference_file_path output_file_path).

(** Path opened by [View.write_json]. *)
Definition json_path (output_dir chromosome_name : string) (start end_ : Z) : string :=
  output_dir ++ "json_output/" ++ "Candidates" ++ "_" ++ chromosome_name ++ "_"
  ++ str_Z start ++ "_" ++ str_Z end_ ++ ".json".

(** Base name of the artifact, the part of [json_path] after the directory. *)
Definition artifact_name (chromosome_name : string) (start end_ : Z) : string :=
  "Candidates" ++ "_" ++ chromosome_name ++ "_" ++ str_Z start ++ "_" ++ str_Z end_
  ++ ".json".

Definition write_json (v : View) (start end_ : Z) (r : AllCandidatesInRegion) : M unit :=
  ex <- os_path_exists (v_output_dir v ++ "json_output/") ;;
  (if negb ex then os_mkdir (v_output_dir v ++ "json_output/") else ret tt) ;;;
  open_w (json_path (v_output_dir v) (v_chromosome_name v) start end_) ;;;
  doc <- lift_err (encode (reprJSON r)) ;;
  write_file (json_path (v_output_dir v) (v_chromosome_name v) start end_) doc.

(** The [for chr_name, window_start, window_end in candidate_windows] loop. *)
Fixpoint process_windows (v : View) (ws : list (string * Z * Z))
    (acc : AllCandidatesInRegion) : M AllCandidatesInRegion :=
  match ws with
  | [] => ret acc
  | (chr_name, window_start, window_end) :: rest =>
      emit (EvGetSequence chr_name window_start (window_end + 1)) ;;;
      let reference_sequence := get_sequence (v_ref v) chr_name window_start (window_end + 1) in
      emit (EvGetPileup chr_name window_start (window_end + 1)) ;;;
      let pileup_columns := get_pileup (v_bam v) chr_name window_start (window_end + 1) in
      let candidate_list :=
        allele_candidates chr_name window_start window_end pileup_columns reference_sequence in
      process_windows v rest (add_candidate_to_list acc candidate_list)
  end.

(** [View.parse_region].  The Python method returns [None]; the model
    returns the [AllCandidatesInRegion] object it assembles. *)
Definition parse_region (v : View) (start_position end_position : Z) (json_out : bool)
  : M AllCandidatesInRegion :=
  emit (EvGetReads (v_chromosome_name v) start_position end_position) ;;;
  let reads := get_reads (v_bam v) (v_chromosome_name v) start_position end_position in
  let windows := candidate_windows (v_ref v) reads (v_chromosome_name v)
                                   start_position end_position in
  all_candidate_lists <- process_windows v windows
    (mkRegion (v_chromosome_name v) start_position end_position []) ;;
  (if json_out then write_json v start_position end_position all_candidate_lists
   else ret tt) ;;;
  ret all_candidate_lists.

(** [View.test] *)
Definition test (v : View) (json_out : bool) : M unit :=
  _ <- parse_region v 100000 200000 json_out ;;
  ret tt.

(** [int(math.ceil(a / b))].  For [0 <= a < 2^53] and [b >= 1] the float
    quotient rounds to an integer only when the exact quotient is one (its
    rounding error is below [1/b]), so the exact ceiling is what Python
    computes for every chromosome length. *)
Definition ceil_div (a b : Z) : Z := - ((- a) / b).

(** [for i in range(...)] body of [do_parallel], from shard [i] on. *)
Fixpoint spawn_shards (chr_name bam_file ref_file : string) (json_out : bool)
    (output_dir : string) (each_segment_length i : Z) (k : nat) : M unit :=
  match k with
  | O => ret tt
  | S k' =>
      view <- View_init chr_name bam_file ref_file output_dir ;;
      let start_position := i * each_segment_length in
      let end_position := (i + 1) * each_segment_length + 1000 in
      emit (EvSpawn (v_chromosome_name view) start_position end_position json_out) ;;;
      spawn_shards chr_name bam_file ref_file json_out output_dir
                   each_segment_length (i + 1) k'
  end.

Definition do_parallel (chr_name bam_file ref_file : string) (json_out : bool)
    (output_dir : string) (max_threads : Z) : M unit :=
  emit (EvOpenFasta ref_file) ;;;
  emit (EvChrLength chr_name) ;;;
  let whole_length := chr_length ref_file chr_name in
  if Z.eqb max_threads 0 then raise ZeroDivisionError
  else
    let each_segment_length := ceil_div whole_length max_threads in
    spawn_shards chr_name bam_file ref_file json_out output_dir
                 each_segment_length 0 (Z.to_nat max_threads).

(** The parsed command line ([FLAGS]). *)
Record Flags := mkFlags {
  f_ref : string;
  f_bam : string;
  f_chromosome_name : string;
  f_max_threads : Z;
  f_test : bool;
  f_json : bool;
  f_output_dir : string }.

(** [if FLAGS.output_dir[-1] != '/': FLAGS.output_dir += '/'] *)
Definition normalize_output_dir (d : string) : M string :=
  match last_char d with
  | None => raise IndexError
  | Some c => ret (if Ascii.eqb c slash then d else d ++ "/")
  end.

(** The [__main__] block after argument parsing. *)
Definition main (F : Flags) : M unit :=
  output_dir <- normalize_output_dir (f_output_dir F) ;;
  ex <- os_path_exists output_dir ;;
  (if negb ex then os_mkdir output_dir else ret tt) ;;;
  _ <- View_init (f_chromosome_name F) (f_bam F) (f_ref F) output_dir ;;
  if f_test F then
    view <- View_init (f_chromosome_name F) (f_bam F) (f_ref F) output_dir ;;
    test view (f_json F)
  else
    do_parallel (f_chromosome_name F) (f_bam F) (f_ref F) (f_json F)
                output_dir (f_max_threads F).

End Collaborators.

(** Candidate list objects used in the concrete runs below: an object
    whose [reprJSON] gives its support count. *)
Definition sample_cand (n : Z) : pyobj :=
  PCustom (PDict [("support", PInt n); ("alt", PStr "A")]).

(** Whether character [c] occurs in [s]. *)
Definition has_char (c : ascii) (s : string) : bool :=
  existsb (fun x => Ascii.eqb x c) (list_ascii_of_string s).

(** Value of a string of decimal digits read left to right, starting
    from [v]; used to read back what [str] prints. *)
Fixpoint dval (v : N) (s : string) : N :=
  match s with
  | EmptyString => v
  | String c r => dval (10 * v + (N_of_ascii c - 48)) r
  end.

(** The string does not start with '-'. *)
Definition head_not_minus (s : string) : Prop :=
  match s with String c _ => c <> "-"%char | EmptyString => True end.

(** The list case of [encode]: the elements in order, the first
    failure propagated. *)
Fixpoint encode_list (l : list pyobj) : pyerr + list json :=
  match l with
  | [] => inr []
  | x :: r =>
      match encode x with
      | inl e => inl e
      | inr j => match encode_list r with
                 | inl e => inl e
                 | inr js => inr (j :: js)
                 end
      end
  end.

(** Calls that read the data of a region. *)
Definition is_region_call (ev : event) : bool :=
  match ev with
  | EvGetReads _ _ _ | EvGetSequence _ _ _ | EvGetPileup _ _ _ => true
  | _ => false
  end.

(** Induction on [pyobj] through its nested lists. *)
Section PyobjInd.
Variable P : pyobj -> Prop.
Hypothesis HNone : P PNone.
Hypothesis HBool : forall b, P (PBool b).
Hypothesis HInt : forall z, P (PInt z).
Hypothesis HStr : forall s, P (PStr s).
Hypothesis HList : forall l, Forall P l -> P (PList l).
Hypothesis HDict : forall kvs, Forall (fun kv => P (snd kv)) kvs -> P (PDict kvs).
Hypothesis HCustom : forall r, P r -> P (PCustom r).
Hypothesis HOpaque : forall n, P (POpaque n).

Fixpoint pyobj_ind' (o : pyobj) : P o :=
  match o with
  | PNone => HNone
  | PBool b => HBool b
  | PInt z => HInt z
  | PStr s => HStr s
  | PList l =>
      HList l ((fix go (l : list pyobj) : Forall P l :=
                  match l with
                  | [] => Forall_nil _
                  | x :: r => Forall_cons x (pyobj_ind' x) (go r)
                  end) l)
  | PDict kvs =>
      HDict kvs ((fix go (l : list (string * pyobj))
                    : Forall (fun kv => P (snd kv)) l :=
                    match l with
                    | [] => Forall_nil _
                    | kv :: r => Forall_cons kv (pyobj_ind' (snd kv)) (go r)
                    end) kvs)
  | PCustom r => HCustom r (pyobj_ind' r)
  | POpaque n => HOpaque n
  end.
End PyobjInd.

(** ** Lemmas on strings and paths *)

Lemma list_ascii_of_string_app (a b : string) :
  list_ascii_of_string (a ++ b) = (list_ascii_of_string a ++ list_ascii_of_string b)%list.
Proof. induction a as [|c a IH]; simpl; [reflexivity | now rewrite IH]. Qed.

Lemma has_slash_app (a b : string) :
  has_slash (a ++ b) = has_slash a || has_slash b.
Proof. unfold has_slash. now rewrite list_ascii_of_string_app, existsb_app. Qed.

Lemma existsb_rev {A} (f : A -> bool) (l : list A) :
  existsb f (rev l) = existsb f l.
Proof.
  induction l as [|x l IH]; simpl; [reflexivity|].
  rewrite existsb_app, IH. simpl. now rewrite orb_false_r, orb_comm.
Qed.


Lemma ends_slash_rev (d : string) :
  ends_slash d ->
  exists r, rev (list_ascii_of_string d) = slash :: r.
Proof.
  unfold ends_slash, last_char. destruct (rev (list_ascii_of_string d)) as [|c r];
    intros H; inversion H; eauto.
Qed.

Lemma digit_not_slash (n : N) :
  Ascii.eqb (ascii_of_N (48 + N.modulo n 10)) slash = false.
Proof.
  destruct (Ascii.eqb _ _) eqn:E; [|reflexivity].
  apply Ascii.eqb_eq in E.
  assert (Hlt : (N.modulo n 10 < 10)%N) by (apply N.mod_lt; discriminate).
  assert (Hn : N_of_ascii (ascii_of_N (48 + N.modulo n 10)) = (48 + N.modulo n 10)%N)
    by (apply N_ascii_embedding; lia).
  rewrite E in Hn. change (N_of_ascii slash) with 47%N in Hn. exfalso. remember (N.modulo n 10) as m. clear - Hn. lia.
Qed.

Lemma digits_acc_no_slash (fuel : nat) (n : N) (acc : string) :
  has_slash acc = false -> has_slash (digits_acc fuel n acc) = false.
Proof.
  revert n acc; induction fuel as [|f IH]; intros n acc H; simpl; [exact H|].
  assert (H' : has_slash (String (ascii_of_N (48 + N.modulo n 10)) acc) = false)
    by (unfold has_slash; cbn [list_ascii_of_string existsb]; rewrite digit_not_slash; exact H).
  destruct (N.ltb n 10); [exact H' | now apply IH].
Qed.

Lemma str_Z_no_slash (z : Z) : has_slash (str_Z z) = false.
Proof.
  destruct z as [|p|p]; unfold str_Z.
  - apply digits_acc_no_slash; reflexivity.
  - apply digits_acc_no_slash; reflexivity.
  - rewrite has_slash_app. apply orb_false_iff.
    split; [reflexivity | apply digits_acc_no_slash; reflexivity].
Qed.

(** ** Sorting dict items *)


Lemma key_le_total (a b : string) : String.leb a b = false -> key_le b a.
Proof.
  unfold key_le, String.leb. rewrite (String.compare_antisym b a).
  destruct (String.compare a b); simpl; congruence.
Qed.

Lemma insert_item_hd {A} (a : string) (kv : string * A) (l : list (string * A)) :
  HdRel key_le a (map fst l) -> key_le a (fst kv) ->
  HdRel key_le a (map fst (insert_item kv l)).
Proof.
  destruct l as [|kv' r]; simpl; intros H1 H2; [now constructor|].
  destruct (String.leb (fst kv) (fst kv')); simpl; constructor; auto.
  now inversion H1.
Qed.

Lemma insert_item_sorted {A} (kv : string * A) (l : list (string * A)) :
  Sorted key_le (map fst l) -> Sorted key_le (map fst (insert_item kv l)).
Proof.
  induction l as [|kv' r IH]; simpl; intros H; [now repeat constructor|].
  destruct (String.leb (fst kv) (fst kv')) eqn:E; simpl.
  - constructor; [exact H | now constructor].
  - apply Sorted_inv in H as [Hr Hhd]. constructor; [now apply IH|].
    apply insert_item_hd; [exact Hhd | now apply key_le_total].
Qed.

Lemma sort_items_sorted {A} (l : list (string * A)) :
  Sorted key_le (map fst (sort_items l)).
Proof.
  induction l as [|kv r IH]; simpl; [constructor | now apply insert_item_sorted].
Qed.

Lemma insert_item_forall {A} (P : string * A -> Prop) kv l :
  P kv -> Forall P l -> Forall P (insert_item kv l).
Proof.
  induction l as [|kv' r IH]; simpl; intros Hkv Hl; [now constructor|].
  inversion Hl; subst.
  destruct (String.leb (fst kv) (fst kv')); constructor; auto.
Qed.

Lemma sort_items_forall {A} (P : string * A -> Prop) l :
  Forall P l -> Forall P (sort_items l).
Proof.
  induction l as [|kv r IH]; simpl; intros Hl; [constructor|].
  inversion Hl; subst. apply insert_item_forall; auto.
Qed.

Lemma string_app_assoc (a b c : string) : (a ++ b) ++ c = a ++ (b ++ c).
Proof. induction a as [|x a IH]; simpl; [reflexivity | now rewrite IH]. Qed.

Lemma string_app_neq_self (d n : string) : n <> "" -> d ++ n <> d.
Proof.
  induction d as [|c d IH]; simpl; intros Hn E; [exact (Hn E)|].
  injection E as E. exact (IH Hn E).
Qed.

(** ** Encoding with [sort_keys=True] *)


Ltac case_sum_in H :=
  match type of H with
  | context [match ?t with inl _ => _ | inr _ => _ end] =>
      let E := fresh "E" in destruct t eqn:E
  end.

Lemma encode_keys_sorted (o : pyobj) (j : json) :
  encode o = inr j -> KeysSorted j.
Proof.
  revert j. induction o as [| | | | l Hl | kvs Hkvs | r IH | n] using pyobj_ind';
    intros j H; simpl in H.
  - injection H as <-. constructor.
  - injection H as <-. constructor.
  - injection H as <-. constructor.
  - injection H as <-. constructor.
  - case_sum_in H; [discriminate|]. injection H as <-. constructor.
    match goal with E : _ = inr ?js |- Forall _ ?js => revert js E end.
    induction Hl as [|x l Px Fl IHl]; intros js E; simpl in E.
    + injection E as <-. constructor.
    + destruct (encode x) as [e|jx] eqn:Ex; [discriminate|].
      case_sum_in E; [discriminate|]. injection E as <-.
      constructor; [exact (Px jx eq_refl) | exact (IHl _ eq_refl)].
  - case_sum_in H; [discriminate|]. injection H as <-. constructor.
    + apply sort_items_sorted.
    + apply sort_items_forall.
      match goal with E : _ = inr ?js |- Forall _ ?js => revert js E end.
      induction Hkvs as [|[k v] l Pkv Fl IHl]; intros js E; simpl in E.
      * injection E as <-. constructor.
      * destruct (encode v) as [e|jv] eqn:Ev; [discriminate|].
        case_sum_in E; [discriminate|]. injection E as <-.
        constructor; [exact (Pkv jv Ev) | exact (IHl _ eq_refl)].
  - exact (IH j H).
  - discriminate.
Qed.

(** ** Path resolution *)

Lemma names_eqb_eq (a b : list string) : names_eqb a b = true <-> a = b.
Proof.
  revert b; induction a as [|x a IH]; intros [|y b]; simpl; split; intros H;
    try discriminate; try reflexivity.
  - apply andb_true_iff in H as [H1 H2]. apply String.eqb_eq in H1.
    apply IH in H2. now subst.
  - injection H as -> ->. rewrite String.eqb_refl. simpl. now apply IH.
Qed.

Lemma cpath_eqb_eq (a b : cpath) : cpath_eqb a b = true <-> a = b.
Proof.
  destruct a as [x l], b as [y m]. unfold cpath_eqb. simpl.
  rewrite andb_true_iff, names_eqb_eq. split.
  - intros [H1 H2]. apply Bool.eqb_prop in H1. now subst.
  - intros H. injection H as -> ->. split; [apply Bool.eqb_reflx | reflexivity].
Qed.

Lemma cpath_eqb_longer (b : bool) (l ys : list string) :
  ys <> [] -> cpath_eqb (b, l) (b, l ++ ys)%list = false.
Proof.
  intros Hys. destruct (cpath_eqb _ _) eqn:E; [|reflexivity].
  apply cpath_eqb_eq in E. injection E as E.
  apply (f_equal (@length string)) in E. rewrite length_app in E.
  destruct ys; [contradiction | simpl in E; lia].
Qed.

Lemma find_app_none {A} (g : A -> bool) (l1 l2 : list A) :
  find g l1 = None -> find g (l1 ++ l2)%list = find g l2.
Proof.
  induction l1 as [|x l1 IH]; simpl; [reflexivity|].
  destruct (g x); [discriminate | exact IH].
Qed.

Lemma find_negb_none {A} (g : A -> bool) (l : list A) :
  find (fun x => negb (g x)) l = None <-> forallb g l = true.
Proof.
  induction l as [|x l IH]; simpl; [tauto|].
  destruct (g x); simpl; [exact IH | split; discriminate].
Qed.

(** Resolution succeeds exactly when every directory on the way exists. *)
Lemma walk_error_none (fs : FS) (p : string) :
  walk_error fs p = None <-> walk_ok fs (canon p) = true.
Proof.
  unfold walk_error, walk_ok, canon. simpl.
  pose proof (find_negb_none (fun cs => dir_at fs (path_abs p, cs))
                (proper_prefixes (components p))) as Hf.
  destruct (find _ _) eqn:E.
  - split; [discriminate|]. intros H. apply Hf in H. discriminate.
  - split; [intros _; now apply Hf | reflexivity].
Qed.

Lemma proper_prefixes_snoc (l : list string) (x : string) :
  proper_prefixes (l ++ [x])%list =
  match l with [] => [] | _ :: _ => (proper_prefixes l ++ [l])%list end.
Proof.
  assert (Hc : forall a y t, proper_prefixes (a :: y :: t) =
                             [a] :: map (cons a) (proper_prefixes (y :: t))) by reflexivity.
  induction l as [|a r IH]; [reflexivity|].
  destruct r as [|b r']; [reflexivity|].
  change ((a :: b :: r') ++ [x])%list with (a :: b :: (r' ++ [x]))%list.
  rewrite Hc. change (b :: (r' ++ [x]))%list with ((b :: r') ++ [x])%list.
  rewrite IH, Hc, map_app. reflexivity.
Qed.

Lemma walk_ok_snoc (fs : FS) (b : bool) (l : list string) (x : string) :
  walk_ok fs (b, l ++ [x])%list = walk_ok fs (b, l) && dir_at fs (b, l).
Proof.
  unfold walk_ok. cbn [fst snd]. rewrite proper_prefixes_snoc.
  destruct l as [|y l]; [reflexivity|].
  rewrite forallb_app. simpl. now rewrite andb_true_r.
Qed.

(** Resolving a path resolves every directory that leads to it. *)
Lemma walk_ok_prefix (fs : FS) (b : bool) (l ys : list string) :
  ys <> [] -> walk_ok fs (b, l ++ ys)%list = true -> dir_at fs (b, l) = true.
Proof.
  induction ys as [|y ys IH] using rev_ind; intros Hne H; [contradiction|].
  rewrite app_assoc, walk_ok_snoc in H. apply andb_true_iff in H as [H1 H2].
  destruct ys as [|y' ys'].
  - now rewrite app_nil_r in H2.
  - apply IH; [discriminate | exact H1].
Qed.

Lemma dir_at_add_mono (fs : FS) (d : string) files (c : cpath) :
  dir_at fs c = true -> dir_at (mkFS (fs_dirs fs ++ [d]) files) c = true.
Proof.
  unfold dir_at. cbn [fs_dirs]. destruct (snd c); [reflexivity|].
  rewrite existsb_app. intros H. now rewrite H.
Qed.

Lemma dir_at_add_self (fs : FS) (d : string) files :
  dir_at (mkFS (fs_dirs fs ++ [d]) files) (canon d) = true.
Proof.
  unfold dir_at. cbn [fs_dirs]. destruct (snd (canon d)); [reflexivity|].
  rewrite existsb_app. simpl. rewrite (proj2 (cpath_eqb_eq _ _) eq_refl).
  now rewrite !orb_true_r.
Qed.

Lemma dir_at_add_other (fs : FS) (d : string) files (c : cpath) :
  cpath_eqb (canon d) c = false ->
  dir_at (mkFS (fs_dirs fs ++ [d]) files) c = dir_at fs c.
Proof.
  intros H. unfold dir_at. cbn [fs_dirs]. destruct (snd c); [reflexivity|].
  rewrite existsb_app. simpl. rewrite H. now rewrite orb_false_r.
Qed.

Lemma walk_ok_add_mono (fs : FS) (d : string) files (c : cpath) :
  walk_ok fs c = true -> walk_ok (mkFS (fs_dirs fs ++ [d]) files) c = true.
Proof.
  unfold walk_ok. rewrite !forallb_forall. intros H x Hx.
  apply dir_at_add_mono. now apply H.
Qed.

Lemma is_dir_true (fs : FS) (p : string) :
  is_dir fs p = true <->
  p <> "" /\ walk_ok fs (canon p) = true /\ dir_at fs (canon p) = true.
Proof.
  unfold is_dir. destruct (walk_error fs p) eqn:E.
  - rewrite andb_false_r. split; [discriminate|].
    intros [_ [H _]]. apply walk_error_none in H. congruence.
  - pose proof (proj1 (walk_error_none fs p) E) as Hw. rewrite Hw.
    rewrite andb_true_iff, negb_true_iff, String.eqb_neq. tauto.
Qed.

Lemma comps_aux_snoc_slash (cur l : list ascii) :
  comps_aux cur (l ++ [slash])%list = comps_aux cur l.
Proof.
  revert cur. induction l as [|c l IH]; intros cur.
  - simpl. now rewrite app_nil_r.
  - cbn [app comps_aux]. destruct (Ascii.eqb c slash); [now rewrite IH | apply IH].
Qed.

Lemma comps_aux_app_slash (cur l1 l2 : list ascii) :
  comps_aux cur (l1 ++ slash :: l2)%list = (comps_aux cur l1 ++ comps_aux [] l2)%list.
Proof.
  revert cur. induction l1 as [|c l1 IH]; intros cur.
  - reflexivity.
  - cbn [app comps_aux]. destruct (Ascii.eqb c slash); [rewrite IH; apply app_assoc | apply IH].
Qed.

Lemma comps_aux_word (cur l : list ascii) :
  existsb (fun c => Ascii.eqb c slash) l = false ->
  comps_aux cur l = flush (cur ++ l)%list.
Proof.
  revert cur. induction l as [|c l IH]; intros cur H.
  - simpl. now rewrite app_nil_r.
  - cbn [existsb] in H. apply orb_false_iff in H as [H1 H2].
    cbn [comps_aux]. rewrite H1, IH by exact H2. now rewrite <- app_assoc.
Qed.

Lemma ends_slash_split (d : string) :
  ends_slash d -> exists l, list_ascii_of_string d = (l ++ [slash])%list.
Proof.
  intros H. apply ends_slash_rev in H as [r Hr]. exists (rev r).
  rewrite <- (rev_involutive (list_ascii_of_string d)), Hr. reflexivity.
Qed.

Lemma components_app (d x : string) :
  ends_slash d -> components (d ++ x) = (components d ++ components x)%list.
Proof.
  intros H. apply ends_slash_split in H as [l Hl]. unfold components.
  rewrite list_ascii_of_string_app, Hl, <- app_assoc.
  change ([slash] ++ list_ascii_of_string x)%list with (slash :: list_ascii_of_string x).
  rewrite comps_aux_app_slash, comps_aux_snoc_slash. reflexivity.
Qed.

Lemma path_abs_app (d x : string) : ends_slash d -> path_abs (d ++ x) = path_abs d.
Proof. destruct d; [intros H; discriminate H | reflexivity]. Qed.

Lemma ends_slash_subdir (od : string) : ends_slash (od ++ "json_output/").
Proof.
  unfold ends_slash, last_char. rewrite list_ascii_of_string_app, rev_app_distr.
  reflexivity.
Qed.

Lemma ends_slash_nonempty (d : string) : ends_slash d -> d <> "".
Proof. intros H E. subst. discriminate H. Qed.

(** Where the artifact directory and the artifact are. *)
Lemma canon_subdir (od : string) :
  ends_slash od ->
  canon (od ++ "json_output/") = (path_abs od, components od ++ ["json_output"])%list /\
  canon (od ++ "json_output") = (path_abs od, components od ++ ["json_output"])%list.
Proof.
  intros Hod. unfold canon. rewrite !path_abs_app, !components_app by exact Hod.
  split; reflexivity.
Qed.

(** ** [View.write_json] *)

Lemma json_path_split (od chr : string) (s e : Z) :
  json_path od chr s e = (od ++ "json_output/") ++ artifact_name chr s e.
Proof. unfold json_path, artifact_name. now rewrite string_app_assoc. Qed.

Lemma artifact_name_no_slash (chr : string) (s e : Z) :
  has_slash chr = false -> has_slash (artifact_name chr s e) = false.
Proof.
  intros H. unfold artifact_name. rewrite !has_slash_app, H, !str_Z_no_slash.
  reflexivity.
Qed.

Lemma artifact_name_nonempty (chr : string) (s e : Z) : artifact_name chr s e <> "".
Proof. unfold artifact_name. simpl. discriminate. Qed.

Lemma file_contents_set (dirs : list string) (p : string) (c : option json) l :
  file_contents (mkFS dirs (set_file p c l)) p = Some c.
Proof. unfold file_contents, set_file. simpl. now rewrite String.eqb_refl. Qed.

Lemma bind_inr {A B} (m : M A) (k : A -> M B) (w : World) x :
  bind m k w = inr x -> exists a w1, m w = inr (a, w1) /\ k a w1 = inr x.
Proof. unfold bind. destruct (m w) as [e|[a w1]]; [discriminate | eauto]. Qed.

Lemma components_artifact (chr : string) (s e : Z) :
  has_slash chr = false -> components (artifact_name chr s e) = [artifact_name chr s e].
Proof.
  intros H. unfold components. rewrite comps_aux_word by exact (artifact_name_no_slash chr s e H).
  cbn [app]. unfold flush. rewrite string_of_list_ascii_of_string.
  replace (String.eqb (artifact_name chr s e) "") with false by reflexivity.
  replace (String.eqb (artifact_name chr s e) ".") with false by reflexivity.
  reflexivity.
Qed.

Lemma canon_json_path (od chr : string) (s e : Z) :
  ends_slash od -> has_slash chr = false ->
  canon (json_path od chr s e) =
  (path_abs od, (components od ++ ["json_output"]) ++ [artifact_name chr s e])%list.
Proof.
  intros Hod Hchr. rewrite json_path_split. unfold canon.
  rewrite path_abs_app by exact (ends_slash_subdir od).
  rewrite path_abs_app by exact Hod.
  rewrite components_app by exact (ends_slash_subdir od).
  rewrite components_app by exact Hod.
  rewrite components_artifact by exact Hchr. reflexivity.
Qed.

Lemma json_path_nonempty (od chr : string) (s e : Z) : String.eqb (json_path od chr s e) "" = false.
Proof. unfold json_path. destruct od; reflexivity. Qed.

Lemma trailing_slash_json_path (od chr : string) (s e : Z) :
  trailing_slash (json_path od chr s e) = false.
Proof.
  unfold trailing_slash, last_char, json_path.
  rewrite !list_ascii_of_string_app, !rev_app_distr. reflexivity.
Qed.

Lemma trailing_slash_subdir (od : string) : trailing_slash (od ++ "json_output/") = true.
Proof. unfold trailing_slash. now rewrite (ends_slash_subdir od). Qed.

Lemma subdir_nonempty (od : string) : String.eqb (od ++ "json_output/") "" = false.
Proof. destruct od; reflexivity. Qed.

(** With [json_output/] a directory, the artifact path resolves. *)
Lemma json_path_walk (fs : FS) (od chr : string) (s e : Z) :
  ends_slash od -> has_slash chr = false ->
  walk_ok fs (canon (od ++ "json_output/")) = true ->
  dir_at fs (canon (od ++ "json_output/")) = true ->
  walk_error fs (json_path od chr s e) = None.
Proof.
  intros Hod Hchr Hw Hd. apply walk_error_none.
  rewrite (canon_json_path od chr s e Hod Hchr), walk_ok_snoc.
  destruct (canon_subdir od Hod) as [Hc _]. rewrite Hc in Hw, Hd.
  now rewrite Hw, Hd.
Qed.

Lemma os_mkdir_inr (p : string) (w w' : World) (u : unit) :
  os_mkdir p w = inr (u, w') ->
  w' = mkWorld (mkFS (fs_dirs (w_fs w) ++ [p]) (fs_files (w_fs w))) (w_log w).
Proof.
  unfold os_mkdir. destruct (String.eqb p ""); [discriminate|].
  destruct (walk_error _ _); [discriminate|].
  destruct (_ || _); [discriminate|]. intros H. now injection H as _ <-.
Qed.

Lemma open_w_inr (p : string) (w w' : World) (u : unit) :
  open_w p w = inr (u, w') ->
  walk_error (w_fs w) p = None /\ dir_at (w_fs w) (canon p) = false /\
  w' = mkWorld (mkFS (fs_dirs (w_fs w)) (set_file p None (fs_files (w_fs w)))) (w_log w).
Proof.
  unfold open_w. destruct (String.eqb p ""); [discriminate|].
  destruct (walk_error _ _); [discriminate|].
  destruct (dir_at _ _); [discriminate|].
  destruct (trailing_slash p); [discriminate|]. intros H. injection H as _ <-. auto.
Qed.

(** [write_json] when [json_output/] is already a directory. *)
Lemma write_json_existing_steps {CandList} (cand_obj : CandList -> pyobj)
    (chr bam ref od : string) (s e : Z) (r : AllCandidatesInRegion)
    (fs : FS) (log : list event) (doc : json) :
  ends_slash od -> is_dir fs (od ++ "json_output/") = true -> has_slash chr = false ->
  dir_at fs (canon (json_path od chr s e)) = false ->
  encode (reprJSON cand_obj r) = inr doc ->
  write_json cand_obj (mkView chr bam ref od) s e r (mkWorld fs log) =
  inr (tt, mkWorld (mkFS (fs_dirs fs)
                         (set_file (json_path od chr s e) (Some doc)
                            (set_file (json_path od chr s e) None (fs_files fs))))
                   log).
Proof.
  intros Hod Hsub Hchr Hnd Henc.
  assert (Hsub' := Hsub). apply is_dir_true in Hsub' as [_ [Hw Hd]].
  assert (Hex : path_exists fs (od ++ "json_output/") = true).
  { unfold path_exists. rewrite subdir_nonempty, (proj2 (walk_error_none _ _) Hw), Hd.
    reflexivity. }
  assert (Hwj := json_path_walk fs od chr s e Hod Hchr Hw Hd).
  unfold write_json, bind, os_path_exists, open_w, lift_err, write_file, ret.
  cbn [v_output_dir v_chromosome_name w_fs w_log fs_dirs fs_files].
  rewrite Hex. cbn -[walk_error dir_at canon json_path trailing_slash file_at encode
                     reprJSON set_file String.eqb].
  rewrite json_path_nonempty, Hwj, Hnd, trailing_slash_json_path, Henc. reflexivity.
Qed.

(** [write_json] when nothing is at [json_output/] yet. *)
Lemma write_json_fresh_steps {CandList} (cand_obj : CandList -> pyobj)
    (chr bam ref od : string) (s e : Z) (r : AllCandidatesInRegion)
    (fs : FS) (log : list event) (doc : json) :
  ends_slash od -> is_dir fs od = true ->
  is_dir fs (od ++ "json_output/") = false ->
  file_at fs (canon (od ++ "json_output")) = false ->
  has_slash chr = false ->
  dir_at fs (canon (json_path od chr s e)) = false ->
  encode (reprJSON cand_obj r) = inr doc ->
  write_json cand_obj (mkView chr bam ref od) s e r (mkWorld fs log) =
  inr (tt, mkWorld
             (mkFS (fs_dirs fs ++ [od ++ "json_output/"])
                   (set_file (json_path od chr s e) (Some doc)
                      (set_file (json_path od chr s e) None (fs_files fs))))
             log).
Proof.
  intros Hod Hdir Hsub Hfile Hchr Hnd Henc.
  apply is_dir_true in Hdir as [_ [Hw Hd]].
  destruct (canon_subdir od Hod) as [Hc Hc'].
  assert (Hws : walk_ok fs (canon (od ++ "json_output/")) = true).
  { rewrite Hc, walk_ok_snoc. unfold canon in Hw, Hd. now rewrite Hw, Hd. }
  assert (Hds : dir_at fs (canon (od ++ "json_output/")) = false).
  { destruct (dir_at fs (canon (od ++ "json_output/"))) eqn:E; [|reflexivity].
    assert (is_dir fs (od ++ "json_output/") = true) by (apply is_dir_true; split;
      [apply ends_slash_nonempty, ends_slash_subdir | split; assumption]).
    congruence. }
  assert (Hwe := proj2 (walk_error_none _ _) Hws).
  assert (Hex : path_exists fs (od ++ "json_output/") = false).
  { unfold path_exists. now rewrite subdir_nonempty, Hwe, Hds, trailing_slash_subdir. }
  assert (Hfs : file_at fs (canon (od ++ "json_output/")) = false)
    by (rewrite Hc; rewrite Hc' in Hfile; exact Hfile).
  set (fs1 := mkFS (fs_dirs fs ++ [od ++ "json_output/"]) (fs_files fs)).
  assert (Hwj : walk_error fs1 (json_path od chr s e) = None).
  { apply (json_path_walk fs1 od chr s e Hod Hchr).
    - apply walk_ok_add_mono, Hws.
    - apply dir_at_add_self. }
  assert (Hnd1 : dir_at fs1 (canon (json_path od chr s e)) = false).
  { unfold fs1. rewrite dir_at_add_other; [exact Hnd|].
    rewrite (canon_json_path od chr s e Hod Hchr), Hc.
    apply cpath_eqb_longer. discriminate. }
  unfold write_json, bind, os_path_exists, os_mkdir, open_w, lift_err, write_file, ret.
  cbn [v_output_dir v_chromosome_name w_fs w_log fs_dirs fs_files].
  rewrite Hex. cbn -[walk_error dir_at canon json_path trailing_slash file_at encode
                     reprJSON set_file String.eqb app].
  rewrite subdir_nonempty, Hwe, Hds, Hfs.
  cbn -[walk_error dir_at canon json_path trailing_slash file_at encode
        reprJSON set_file String.eqb app].
  fold fs1.
  rewrite json_path_nonempty, Hwj, Hnd1, trailing_slash_json_path, Henc. reflexivity.
Qed.

(** [write_json] into an existing output directory. *)
Lemma write_json_steps {CandList} (cand_obj : CandList -> pyobj)
    (chr bam ref od : string) (s e : Z) (r : AllCandidatesInRegion)
    (fs : FS) (log : list event) (doc : json) :
  ends_slash od -> is_dir fs od = true ->
  file_at fs (canon (od ++ "json_output")) = false ->
  has_slash chr = false ->
  dir_at fs (canon (json_path od chr s e)) = false ->
  encode (reprJSON cand_obj r) = inr doc ->
  write_json cand_obj (mkView chr bam ref od) s e r (mkWorld fs log) =
  inr (tt, mkWorld
             (mkFS (if is_dir fs (od ++ "json_output/") then fs_dirs fs
                    else fs_dirs fs ++ [od ++ "json_output/"])
                   (set_file (json_path od chr s e) (Some doc)
                      (set_file (json_path od chr s e) None (fs_files fs))))
             log).
Proof.
  intros Hod Hdir Hfile Hchr Hnd Henc.
  destruct (is_dir fs (od ++ "json_output/")) eqn:E.
  - exact (write_json_existing_steps cand_obj chr bam ref od s e r fs log doc
             Hod E Hchr Hnd Henc).
  - exact (write_json_fresh_steps cand_obj chr bam ref od s e r fs log doc
             Hod Hdir E Hfile Hchr Hnd Henc).
Qed.

Lemma write_json_inr {CandList} (cand_obj : CandList -> pyobj) (v : View)
    (s e : Z) (r : AllCandidatesInRegion) (w w' : World) :
  write_json cand_obj v s e r w = inr (tt, w') ->
  exists doc w3,
    encode (reprJSON cand_obj r) = inr doc /\
    w' = mkWorld (mkFS (fs_dirs (w_fs w3))
                       (set_file (json_path (v_output_dir v) (v_chromosome_name v) s e)
                                 (Some doc) (fs_files (w_fs w3))))
                 (w_log w3).
Proof.
  unfold write_json. intros H.
  apply bind_inr in H as [ex [w1 [_ H]]].
  apply bind_inr in H as [u [w2 [_ H]]].
  apply bind_inr in H as [u' [w3 [_ H]]].
  apply bind_inr in H as [doc [w4 [Hl H]]].
  unfold lift_err in Hl. destruct (encode (reprJSON cand_obj r)) as [err|doc'];
    [discriminate|]. injection Hl as <- <-.
  unfold write_file in H. injection H as <-. eauto.
Qed.

(** C6: a successful [write_json] stores the document under
    [json_output/] with base name [artifact_name chromosome start end],
    which depends on nothing but the chromosome name and the two bounds,
    and every object of the stored document has its keys in sorted order. *)
Theorem write_json_name_and_sorted_keys {CandList} (cand_obj : CandList -> pyobj)
    (v : View) (start end_ : Z) (r : AllCandidatesInRegion) (w w' : World) :
  write_json cand_obj v start end_ r w = inr (tt, w') ->
  exists doc,
    encode (reprJSON cand_obj r) = inr doc /\
    KeysSorted doc /\
    file_contents (w_fs w')
      (v_output_dir v ++ "json_output/" ++ artifact_name (v_chromosome_name v) start end_)
    = Some (Some doc).
Proof.
  intros H. apply write_json_inr in H as [doc [w3 [Henc ->]]].
  exists doc. split; [exact Henc|]. split; [exact (encode_keys_sorted _ _ Henc)|].
  apply file_contents_set.
Qed.

Lemma write_json_name_and_sorted_keys_witness :
  exists w',
    write_json sample_cand (mkView "chr3" "a.bam" "r.fa" "out/") 0 10
      (mkRegion "chr3" 0 10 [1; 2]) (mkWorld (mkFS ["out/"] []) []) = inr (tt, w') /\
    exists doc,
      encode (reprJSON sample_cand (mkRegion "chr3" 0 10 [1; 2])) = inr doc /\
      KeysSorted doc /\
      file_contents (w_fs w') ("out/" ++ "json_output/" ++ artifact_name "chr3" 0 10)
      = Some (Some doc).
Proof.
  eexists. split; [reflexivity|].
  apply (write_json_name_and_sorted_keys sample_cand (mkView "chr3" "a.bam" "r.fa" "out/")
           0 10 (mkRegion "chr3" 0 10 [1; 2]) (mkWorld (mkFS ["out/"] []) [])).
  reflexivity.
Defined.

(** C10 (as amended): for an output directory ending in '/' (as [__main__]
    leaves it) that is an existing directory, with no regular file named
    [output_dir + "json_output"], no directory at the artifact path and a
    chromosome name without '/', [write_json] succeeds given that the
    candidate objects serialize: it creates [output_dir + "json_output/"]
    itself when that directory is absent, and writes the document to
    [output_dir + "json_output/Candidates_<chr>_<start>_<end>.json"]. *)
Theorem write_json_creates_subdir {CandList} (cand_obj : CandList -> pyobj)
    (chr bam ref od : string) (start end_ : Z) (r : AllCandidatesInRegion)
    (fs : FS) (log : list event) (doc : json) :
  ends_slash od -> is_dir fs od = true ->
  file_at fs (canon (od ++ "json_output")) = false ->
  dir_at fs (canon (json_path od chr start end_)) = false ->
  has_slash chr = false ->
  encode (reprJSON cand_obj r) = inr doc ->
  json_path od chr start end_ =
    od ++ "json_output/" ++ "Candidates_" ++ chr ++ "_" ++ str_Z start ++ "_"
    ++ str_Z end_ ++ ".json" /\
  exists w',
    write_json cand_obj (mkView chr bam ref od) start end_ r (mkWorld fs log)
      = inr (tt, w') /\
    fs_dirs (w_fs w') = (if is_dir fs (od ++ "json_output/") then fs_dirs fs
                         else fs_dirs fs ++ [(od ++ "json_output/")%string])%list /\
    is_dir (w_fs w') (od ++ "json_output/") = true /\
    file_contents (w_fs w') (json_path od chr start end_) = Some (Some doc).
Proof.
  intros Hod Hdir Hfile Hnd Hchr Henc.
  split; [reflexivity|].
  eexists. split.
  { exact (write_json_steps cand_obj chr bam ref od start end_ r fs log doc
             Hod Hdir Hfile Hchr Hnd Henc). }
  split; [reflexivity|]. split; [|apply file_contents_set].
  cbn [w_fs]. destruct (is_dir fs (od ++ "json_output/")) eqn:E.
  - apply is_dir_true in E. apply is_dir_true. exact E.
  - apply is_dir_true in Hdir as [_ [Hw Hd]].
    destruct (canon_subdir od Hod) as [Hc _].
    apply is_dir_true. split; [apply ends_slash_nonempty, ends_slash_subdir|].
    split; [|apply dir_at_add_self].
    apply walk_ok_add_mono. rewrite Hc, walk_ok_snoc.
    unfold canon in Hw, Hd. now rewrite Hw, Hd.
Qed.

Lemma write_json_creates_subdir_witness :
  ends_slash "out/" /\ is_dir (mkFS ["out/"] []) "out/" = true /\
  file_at (mkFS ["out/"] []) (canon ("out/" ++ "json_output")) = false /\
  dir_at (mkFS ["out/"] []) (canon (json_path "out/" "chr3" 0 10)) = false /\
  has_slash "chr3" = false /\
  encode (reprJSON sample_cand (mkRegion "chr3" 0 10 [1])) =
    inr (JObj [("all_candidates", JArr [JObj [("alt", JStr "A"); ("support", JInt 1)]]);
               ("chromosome_name", JStr "chr3"); ("end_position", JInt 10);
               ("start_position", JInt 0)]) /\
  (json_path "out/" "chr3" 0 10 =
     "out/" ++ "json_output/" ++ "Candidates_" ++ "chr3" ++ "_" ++ str_Z 0 ++ "_"
     ++ str_Z 10 ++ ".json" /\
   exists w',
     write_json sample_cand (mkView "chr3" "a.bam" "r.fa" "out/") 0 10
       (mkRegion "chr3" 0 10 [1]) (mkWorld (mkFS ["out/"] []) []) = inr (tt, w') /\
     fs_dirs (w_fs w') = (if is_dir (mkFS ["out/"] []) ("out/" ++ "json_output/")
                          then ["out/"] else ["out/"] ++ [("out/" ++ "json_output/")%string])%list /\
     is_dir (w_fs w') ("out/" ++ "json_output/") = true /\
     file_contents (w_fs w') (json_path "out/" "chr3" 0 10) =
       Some (Some (JObj [("all_candidates", JArr [JObj [("alt", JStr "A"); ("support", JInt 1)]]);
               ("chromosome_name", JStr "chr3"); ("end_position", JInt 10);
               ("start_position", JInt 0)]))).
Proof.
  assert (Hod : ends_slash "out/") by reflexivity.
  assert (Hdir : is_dir (mkFS ["out/"] []) "out/" = true) by reflexivity.
  assert (Hfile : file_at (mkFS ["out/"] []) (canon ("out/" ++ "json_output")) = false)
    by reflexivity.
  assert (Hnd : dir_at (mkFS ["out/"] []) (canon (json_path "out/" "chr3" 0 10)) = false)
    by (vm_compute; reflexivity).
  assert (Hchr : has_slash "chr3" = false) by reflexivity.
  assert (Henc : encode (reprJSON sample_cand (mkRegion "chr3" 0 10 [1])) =
    inr (JObj [("all_candidates", JArr [JObj [("alt", JStr "A"); ("support", JInt 1)]]);
               ("chromosome_name", JStr "chr3"); ("end_position", JInt 10);
               ("start_position", JInt 0)])) by (vm_compute; reflexivity).
  split; [exact Hod|]. split; [exact Hdir|]. split; [exact Hfile|].
  split; [exact Hnd|]. split; [exact Hchr|]. split; [exact Henc|].
  exact (write_json_creates_subdir sample_cand "chr3" "a.bam" "r.fa" "out/" 0 10
           (mkRegion "chr3" 0 10 [1]) (mkFS ["out/"] []) [] _
           Hod Hdir Hfile Hnd Hchr Henc).
Defined.

(** C10, counterexample: a first write into a fresh output directory
    fails for a chromosome name containing '/': the artifact path then
    points into [json_output/Candidates_a/], which nobody creates; the
    [open] raises [FileNotFoundError] after [json_output/] was made. *)
Lemma write_json_slash_chromosome_fails :
  is_dir (mkFS ["out/"] []) "out/" = true /\
  path_exists (mkFS ["out/"] []) "out/json_output/" = false /\
  write_json sample_cand (mkView "a/b" "a.bam" "r.fa" "out/") 0 10
    (mkRegion "a/b" 0 10 []) (mkWorld (mkFS ["out/"] []) [])
  = inl (FileNotFoundError "out/json_output/Candidates_a/b_0_10.json",
         mkWorld (mkFS ["out/"; "out/json_output/"] []) []).
Proof. vm_compute. repeat split. Qed.

Lemma write_json_log {CandList} (cand_obj : CandList -> pyobj) (v : View)
    (s e : Z) (r : AllCandidatesInRegion) (w w' : World) (u : unit) :
  write_json cand_obj v s e r w = inr (u, w') -> w_log w' = w_log w.
Proof.
  unfold write_json. intros H.
  apply bind_inr in H as [ex [w1 [H1 H]]].
  apply bind_inr in H as [u1 [w2 [H2 H]]].
  apply bind_inr in H as [u2 [w3 [H3 H]]].
  apply bind_inr in H as [doc [w4 [H4 H]]].
  unfold os_path_exists in H1. injection H1 as _ <-.
  assert (E2 : w_log w2 = w_log w).
  { destruct (negb ex); [|unfold ret in H2; now injection H2 as _ <-].
    apply os_mkdir_inr in H2. now subst. }
  assert (E3 : w_log w3 = w_log w2) by (apply open_w_inr in H3 as [_ [_ ->]]; reflexivity).
  assert (E4 : w4 = w3).
  { unfold lift_err in H4. destruct (encode _); [discriminate|]. now injection H4 as _ <-. }
  unfold write_file in H. injection H as _ <-. simpl. congruence.
Qed.

Section Orchestration.

Context {Read Pileup RefSeq CandList : Type}.
Variable get_reads : string -> string -> Z -> Z -> list Read.
Variable candidate_windows :
  string -> list Read -> string -> Z -> Z -> list (string * Z * Z).
Variable get_sequence : string -> string -> Z -> Z -> RefSeq.
Variable get_pileup : string -> string -> Z -> Z -> list Pileup.
Variable allele_candidates : string -> Z -> Z -> list Pileup -> RefSeq -> CandList.
Variable cand_obj : CandList -> pyobj.

Local Abbreviation process_windows' :=
  (process_windows get_sequence get_pileup allele_candidates).
Local Abbreviation parse_region' :=
  (parse_region get_reads candidate_windows get_sequence get_pileup
                allele_candidates cand_obj).

(** Windows of a region, in the order the detector returns them. *)
Local Abbreviation windows_of v s e :=
  (candidate_windows (v_ref v) (get_reads (v_bam v) (v_chromosome_name v) s e)
                     (v_chromosome_name v) s e).

Local Abbreviation window_result v :=
  (fun '(c, a, b) =>
     allele_candidates c a b (get_pileup (v_bam v) c a (b + 1))
                       (get_sequence (v_ref v) c a (b + 1))).

Local Abbreviation window_fetches :=
  (flat_map (fun '(c, a, b) => [EvGetSequence c a (b + 1); EvGetPileup c a (b + 1)])).

Lemma process_windows_run (v : View) (ws : list (string * Z * Z))
    (acc : AllCandidatesInRegion) (w : World) :
  process_windows' v ws acc w =
  inr (mkRegion (chromosome_name acc) (start_position acc) (end_position acc)
                (all_candidates acc ++ map (window_result v) ws),
       mkWorld (w_fs w) (w_log w ++ window_fetches ws)).
Proof.
  revert acc w. induction ws as [|[[c a] b] rest IH]; intros acc w.
  - simpl. unfold ret. rewrite !app_nil_r. now destruct acc, w.
  - simpl. unfold bind, emit. simpl. rewrite IH. simpl.
    now rewrite <- !app_assoc.
Qed.

Lemma parse_region_run (v : View) (s e : Z) (json_out : bool) (w : World) :
  parse_region' v s e json_out w =
  (if json_out
   then (write_json cand_obj v s e
           (mkRegion (v_chromosome_name v) s e (map (window_result v) (windows_of v s e)))
         ;;; ret (mkRegion (v_chromosome_name v) s e
                    (map (window_result v) (windows_of v s e))))
   else ret (mkRegion (v_chromosome_name v) s e (map (window_result v) (windows_of v s e))))
  (mkWorld (w_fs w)
     (w_log w ++ EvGetReads (v_chromosome_name v) s e :: window_fetches (windows_of v s e))).
Proof.
  unfold parse_region, bind, emit. simpl. rewrite process_windows_run. simpl.
  rewrite <- app_assoc. simpl.
  destruct json_out; [|reflexivity].
  unfold bind. reflexivity.
Qed.

Lemma parse_region_outcome (v : View) (s e : Z) (json_out : bool)
    (w w' : World) (r : AllCandidatesInRegion) :
  parse_region' v s e json_out w = inr (r, w') ->
  w_log w' = (w_log w ++ EvGetReads (v_chromosome_name v) s e
                        :: window_fetches (windows_of v s e))%list /\
  all_candidates r = map (window_result v) (windows_of v s e).
Proof.
  rewrite parse_region_run. destruct json_out.
  - intros H. apply bind_inr in H as [u [w2 [Hw Hr]]].
    apply write_json_log in Hw. unfold ret in Hr. injection Hr as <- <-.
    split; [exact Hw | reflexivity].
  - unfold ret. intros H. injection H as <- <-. split; reflexivity.
Qed.

(** C2: every window [(chr_name, window_start, window_end)] leads to a
    fetch of the reference sequence and of the pileup columns over
    [(window_start, window_end + 1)], in this order, and the allele finder
    for the window runs on exactly what was fetched. *)
Theorem parse_region_window_fetches (v : View) (s e : Z) (json_out : bool)
    (w w' : World) (r : AllCandidatesInRegion) :
  parse_region' v s e json_out w = inr (r, w') ->
  w_log w' = (w_log w ++ EvGetReads (v_chromosome_name v) s e
                        :: window_fetches (windows_of v s e))%list /\
  all_candidates r = map (window_result v) (windows_of v s e).
Proof. exact (parse_region_outcome v s e json_out w w' r). Qed.

(** C3: the assembled region holds one candidate list per window, the
    [i]-th list being the one computed for the [i]-th window. *)
Theorem parse_region_preserves_window_order (v : View) (s e : Z) (json_out : bool)
    (w w' : World) (r : AllCandidatesInRegion) :
  parse_region' v s e json_out w = inr (r, w') ->
  length (all_candidates r) = length (windows_of v s e) /\
  forall i win, nth_error (windows_of v s e) i = Some win ->
    nth_error (all_candidates r) i = Some (window_result v win).
Proof.
  intros H. apply parse_region_outcome in H as [_ Hr]. rewrite Hr.
  split; [apply length_map|].
  intros i win Hi. now rewrite nth_error_map, Hi.
Qed.

(** C4: with no window, the run yields the region
    [(chromosome_name, start, end, [])] and raises no exception, whether
    nothing is serialized or the artifact goes to [json_output/] of an
    existing output directory, that subdirectory being there already or
    not (nothing else blocking the write: no regular file named
    [json_output], no directory at the artifact path, no '/' in the
    chromosome name). *)
Theorem parse_region_no_windows (v : View) (s e : Z) (json_out : bool) (w : World) :
  windows_of v s e = [] ->
  (json_out = false \/
   (ends_slash (v_output_dir v) /\
    is_dir (w_fs w) (v_output_dir v) = true /\
    file_at (w_fs w) (canon (v_output_dir v ++ "json_output")) = false /\
    dir_at (w_fs w) (canon (json_path (v_output_dir v) (v_chromosome_name v) s e)) = false /\
    has_slash (v_chromosome_name v) = false)) ->
  exists w', parse_region' v s e json_out w = inr (mkRegion (v_chromosome_name v) s e [], w').
Proof.
  intros Hnil Hj. rewrite parse_region_run, Hnil. simpl map.
  destruct json_out.
  - destruct Hj as [Hf | [Hod [Hdir [Hfile [Hnd Hchr]]]]]; [discriminate|].
    destruct v as [chr bam ref od]. simpl in *.
    unfold bind.
    rewrite (write_json_steps cand_obj chr bam ref od s e (mkRegion chr s e [])
               (w_fs w) _ _ Hod Hdir Hfile Hchr Hnd eq_refl).
    unfold ret. eexists. reflexivity.
  - unfold ret. eexists. reflexivity.
Qed.

(** C5: serializing does not change the assembled region: a run with
    [json_out] yields the same object, and the same calls to the
    collaborators, as the run without it. *)
Theorem parse_region_json_frame (v : View) (s e : Z) (w w1 : World)
    (r : AllCandidatesInRegion) :
  parse_region' v s e true w = inr (r, w1) ->
  parse_region' v s e false w = inr (r, mkWorld (w_fs w) (w_log w1)).
Proof.
  rewrite !parse_region_run. intros H.
  apply bind_inr in H as [u [w2 [Hw Hr]]].
  apply write_json_log in Hw. unfold ret in *. injection Hr as <- <-.
  rewrite Hw. reflexivity.
Qed.

End Orchestration.

(** Concrete runs of [parse_region]: two reads give the windows
    [(chr, p, p + 2)] at their positions; the allele finder returns
    [window_start + window_end]. *)

Lemma parse_region_window_fetches_witness :
  parse_region (fun _ _ s _ => [s + 5; s + 50])
    (fun _ reads chr _ _ => map (fun p => (chr, p, p + 2)) reads)
    (fun _ _ a b => (a, b)) (fun _ _ a b => [a; b]) (fun _ a b _ _ => a + b)
    sample_cand (mkView "chr3" "a.bam" "r.fa" "out/") 100 200 false
    (mkWorld (mkFS ["out/"] []) [])
  = inr (mkRegion "chr3" 100 200 [212; 302],
         mkWorld (mkFS ["out/"] [])
           [EvGetReads "chr3" 100 200; EvGetSequence "chr3" 105 108;
            EvGetPileup "chr3" 105 108; EvGetSequence "chr3" 150 153;
            EvGetPileup "chr3" 150 153]) /\
  [EvGetReads "chr3" 100 200; EvGetSequence "chr3" 105 108;
   EvGetPileup "chr3" 105 108; EvGetSequence "chr3" 150 153;
   EvGetPileup "chr3" 150 153] =
  [EvGetReads "chr3" 100 200; EvGetSequence "chr3" 105 (107 + 1);
   EvGetPileup "chr3" 105 (107 + 1); EvGetSequence "chr3" 150 (152 + 1);
   EvGetPileup "chr3" 150 (152 + 1)].
Proof.
  assert (H : parse_region (fun _ _ s _ => [s + 5; s + 50])
    (fun _ reads chr _ _ => map (fun p => (chr, p, p + 2)) reads)
    (fun _ _ a b => (a, b)) (fun _ _ a b => [a; b]) (fun _ a b _ _ => a + b)
    sample_cand (mkView "chr3" "a.bam" "r.fa" "out/") 100 200 false
    (mkWorld (mkFS ["out/"] []) [])
  = inr (mkRegion "chr3" 100 200 [212; 302],
         mkWorld (mkFS ["out/"] [])
           [EvGetReads "chr3" 100 200; EvGetSequence "chr3" 105 108;
            EvGetPileup "chr3" 105 108; EvGetSequence "chr3" 150 153;
            EvGetPileup "chr3" 150 153])) by reflexivity.
  split; [exact H|].
  apply parse_region_window_fetches in H as [Hlog _].
  exact Hlog.
Defined.

Lemma parse_region_preserves_window_order_witness :
  parse_region (fun _ _ s _ => [s + 5; s + 50])
    (fun _ reads chr _ _ => map (fun p => (chr, p, p + 2)) reads)
    (fun _ _ a b => (a, b)) (fun _ _ a b => [a; b]) (fun _ a b _ _ => a + b)
    sample_cand (mkView "chr3" "a.bam" "r.fa" "out/") 100 200 false
    (mkWorld (mkFS ["out/"] []) [])
  = inr (mkRegion "chr3" 100 200 [212; 302],
         mkWorld (mkFS ["out/"] [])
           [EvGetReads "chr3" 100 200; EvGetSequence "chr3" 105 108;
            EvGetPileup "chr3" 105 108; EvGetSequence "chr3" 150 153;
            EvGetPileup "chr3" 150 153]) /\
  length [212; 302] = 2%nat /\ nth_error [212; 302] 1 = Some (150 + 152).
Proof.
  assert (H : parse_region (fun _ _ s _ => [s + 5; s + 50])
    (fun _ reads chr _ _ => map (fun p => (chr, p, p + 2)) reads)
    (fun _ _ a b => (a, b)) (fun _ _ a b => [a; b]) (fun _ a b _ _ => a + b)
    sample_cand (mkView "chr3" "a.bam" "r.fa" "out/") 100 200 false
    (mkWorld (mkFS ["out/"] []) [])
  = inr (mkRegion "chr3" 100 200 [212; 302],
         mkWorld (mkFS ["out/"] [])
           [EvGetReads "chr3" 100 200; EvGetSequence "chr3" 105 108;
            EvGetPileup "chr3" 105 108; EvGetSequence "chr3" 150 153;
            EvGetPileup "chr3" 150 153])) by reflexivity.
  split; [exact H|].
  apply parse_region_preserves_window_order in H as [Hl Hn].
  split; [exact Hl|].
  exact (Hn 1%nat ("chr3", 150, 152) eq_refl).
Defined.

Lemma parse_region_no_windows_witness :
  (fun _ _ _ _ _ => []) "r.fa" ((fun _ _ _ _ => @nil Z) "a.bam" "chr3" 100 200) "chr3" 100 200
    = @nil (string * Z * Z) /\
  exists w',
    parse_region (fun _ _ _ _ => @nil Z) (fun _ _ _ _ _ => [])
      (fun _ _ a b => (a, b)) (fun _ _ a b => [a; b]) (fun _ a b _ _ => a + b)
      sample_cand (mkView "chr3" "a.bam" "r.fa" "out/") 100 200 true
      (mkWorld (mkFS ["out/"; "out/json_output/"] []) [])
    = inr (mkRegion "chr3" 100 200 [], w').
Proof.
  split; [reflexivity|].
  eapply parse_region_no_windows; [reflexivity|].
  right. split; [reflexivity|]. split; [reflexivity|].
  split; [reflexivity|]. split; [vm_compute; reflexivity | reflexivity].
Defined.

Lemma parse_region_json_frame_witness :
  parse_region (fun _ _ s _ => [s + 5; s + 50])
    (fun _ reads chr _ _ => map (fun p => (chr, p, p + 2)) reads)
    (fun _ _ a b => (a, b)) (fun _ _ a b => [a; b]) (fun _ a b _ _ => a + b)
    sample_cand (mkView "chr3" "a.bam" "r.fa" "out/") 100 200 true
    (mkWorld (mkFS ["out/"] []) [])
  = inr (mkRegion "chr3" 100 200 [212; 302],
         mkWorld (mkFS ["out/"; "out/json_output/"]
           [("out/json_output/Candidates_chr3_100_200.json",
             Some (JObj [("all_candidates",
                          JArr [JObj [("alt", JStr "A"); ("support", JInt 212)];
                                JObj [("alt", JStr "A"); ("support", JInt 302)]]);
                         ("chromosome_name", JStr "chr3");
                         ("end_position", JInt 200);
                         ("start_position", JInt 100)]))])
           [EvGetReads "chr3" 100 200; EvGetSequence "chr3" 105 108;
            EvGetPileup "chr3" 105 108; EvGetSequence "chr3" 150 153;
            EvGetPileup "chr3" 150 153]) /\
  parse_region (fun _ _ s _ => [s + 5; s + 50])
    (fun _ reads chr _ _ => map (fun p => (chr, p, p + 2)) reads)
    (fun _ _ a b => (a, b)) (fun _ _ a b => [a; b]) (fun _ a b _ _ => a + b)
    sample_cand (mkView "chr3" "a.bam" "r.fa" "out/") 100 200 false
    (mkWorld (mkFS ["out/"] []) [])
  = inr (mkRegion "chr3" 100 200 [212; 302],
         mkWorld (mkFS ["out/"] [])
           [EvGetReads "chr3" 100 200; EvGetSequence "chr3" 105 108;
            EvGetPileup "chr3" 105 108; EvGetSequence "chr3" 150 153;
            EvGetPileup "chr3" 150 153]).
Proof.
  assert (H :
  parse_region (fun _ _ s _ => [s + 5; s + 50])
    (fun _ reads chr _ _ => map (fun p => (chr, p, p + 2)) reads)
    (fun _ _ a b => (a, b)) (fun _ _ a b => [a; b]) (fun _ a b _ _ => a + b)
    sample_cand (mkView "chr3" "a.bam" "r.fa" "out/") 100 200 true
    (mkWorld (mkFS ["out/"] []) [])
  = inr (mkRegion "chr3" 100 200 [212; 302],
         mkWorld (mkFS ["out/"; "out/json_output/"]
           [("out/json_output/Candidates_chr3_100_200.json",
             Some (JObj [("all_candidates",
                          JArr [JObj [("alt", JStr "A"); ("support", JInt 212)];
                                JObj [("alt", JStr "A"); ("support", JInt 302)]]);
                         ("chromosome_name", JStr "chr3");
                         ("end_position", JInt 200);
                         ("start_position", JInt 100)]))])
           [EvGetReads "chr3" 100 200; EvGetSequence "chr3" 105 108;
            EvGetPileup "chr3" 105 108; EvGetSequence "chr3" 150 153;
            EvGetPileup "chr3" 150 153])) by (vm_compute; reflexivity).
  split; [exact H|].
  apply parse_region_json_frame in H. exact H.
Defined.

(** ** [do_parallel] *)

Lemma View_init_run (chr bam ref od : string) (w : World) :
  View_init chr bam ref od w =
  inr (mkView chr bam ref od,
       mkWorld (w_fs w) (w_log w ++ [EvOpenBam bam; EvOpenFasta ref])).
Proof.
  destruct w as [fs log]. unfold View_init, bind, emit, ret. simpl.
  now rewrite <- app_assoc.
Qed.

Lemma spawn_shards_run (chr bam ref : string) (json_out : bool) (od : string)
    (c : Z) (k n : nat) (w : World) :
  spawn_shards chr bam ref json_out od c (Z.of_nat n) k w =
  inr (tt, mkWorld (w_fs w)
             (w_log w ++
              flat_map (fun j => [EvOpenBam bam; EvOpenFasta ref;
                                  EvSpawn chr (j * c) ((j + 1) * c + 1000) json_out])
                       (map Z.of_nat (seq n k)))).
Proof.
  revert n w. induction k as [|k IH]; intros n w.
  - simpl. unfold ret. rewrite app_nil_r. now destruct w.
  - simpl spawn_shards. unfold bind at 1. rewrite View_init_run.
    unfold bind, emit. simpl.
    replace (Z.of_nat n + 1) with (Z.of_nat (S n)) by lia.
    rewrite IH. simpl. now rewrite <- !app_assoc.
Qed.

Lemma spawned_ranges_shards (chr bam ref : string) (json_out : bool) (c : Z)
    (l : list Z) :
  spawned_ranges
    (flat_map (fun j => [EvOpenBam bam; EvOpenFasta ref;
                         EvSpawn chr (j * c) ((j + 1) * c + 1000) json_out]) l)
  = map (fun j => (j * c, (j + 1) * c + 1000)) l.
Proof.
  induction l as [|j l IH]; [reflexivity|].
  unfold spawned_ranges in *. simpl. now rewrite IH.
Qed.

Lemma do_parallel_run (chr_length : string -> string -> Z)
    (chr bam ref : string) (json_out : bool) (od : string) (N : Z) (w : World) :
  0 < N ->
  do_parallel chr_length chr bam ref json_out od N w =
  inr (tt, mkWorld (w_fs w)
             (w_log w ++ [EvOpenFasta ref; EvChrLength chr] ++
              flat_map (fun j => [EvOpenBam bam; EvOpenFasta ref;
                 EvSpawn chr (j * ceil_div (chr_length ref chr) N)
                             ((j + 1) * ceil_div (chr_length ref chr) N + 1000) json_out])
                (map Z.of_nat (seq 0 (Z.to_nat N))))).
Proof.
  intros HN. unfold do_parallel, bind, emit. simpl.
  replace (Z.eqb N 0) with false by (symmetry; apply Z.eqb_neq; lia).
  rewrite (spawn_shards_run chr bam ref json_out od _ (Z.to_nat N) 0). simpl.
  now rewrite <- !app_assoc.
Qed.

(** [ceil_div] is the ceiling of the quotient, non-negative for a
    non-negative length. *)
Lemma ceil_div_spec (L N : Z) :
  0 <= L -> 0 < N ->
  0 <= ceil_div L N /\ N * (ceil_div L N - 1) < L <= N * ceil_div L N.
Proof.
  intros HL HN. unfold ceil_div.
  pose proof (Z.div_mod (- L) N ltac:(lia)) as Hdm.
  pose proof (Z.mod_pos_bound (- L) N HN) as Hb.
  nia.
Qed.

Lemma nth_error_shards (c : Z) (K i : nat) :
  nth_error (map (fun j => (j * c, (j + 1) * c + 1000)) (map Z.of_nat (seq 0 K))) i =
  if Nat.ltb i K then Some (Z.of_nat i * c, (Z.of_nat i + 1) * c + 1000) else None.
Proof.
  rewrite !nth_error_map, nth_error_seq. now destruct (Nat.ltb i K).
Qed.

Lemma shard_events_no_join (chr bam ref : string) (json_out : bool) (c : Z)
    (l : list Z) :
  existsb is_join
    (flat_map (fun j => [EvOpenBam bam; EvOpenFasta ref;
                         EvSpawn chr (j * c) ((j + 1) * c + 1000) json_out]) l) = false.
Proof. induction l as [|j l IH]; [reflexivity | exact IH]. Qed.

(** C1: for a chromosome of length [L >= 0], read from the reference, and
    [N >= 1] shards, [do_parallel] starts exactly [N] workers, worker [i]
    on [(i * c, (i + 1) * c + 1000)] with [c = ceil(L / N)]; these ranges
    cover [[0, L]] and two consecutive ones overlap on exactly 1000 bases. *)
Theorem do_parallel_shard_ranges (chr_length : string -> string -> Z)
    (chr bam ref : string) (json_out : bool) (od : string) (N : Z) (w : World) :
  0 <= chr_length ref chr -> 1 <= N ->
  let L := chr_length ref chr in
  let c := ceil_div L N in
  exists evs,
    do_parallel chr_length chr bam ref json_out od N w =
      inr (tt, mkWorld (w_fs w) (w_log w ++ evs)) /\
    In (EvChrLength chr) evs /\
    N * (c - 1) < L <= N * c /\
    length (spawned_ranges evs) = Z.to_nat N /\
    (forall i : nat, (i < Z.to_nat N)%nat ->
       nth_error (spawned_ranges evs) i =
         Some (Z.of_nat i * c, (Z.of_nat i + 1) * c + 1000)) /\
    (forall x, 0 <= x <= L ->
       exists i s e, nth_error (spawned_ranges evs) i = Some (s, e) /\ s <= x < e) /\
    (forall i s1 e1 s2 e2,
       nth_error (spawned_ranges evs) i = Some (s1, e1) ->
       nth_error (spawned_ranges evs) (S i) = Some (s2, e2) ->
       Z.min e1 e2 - Z.max s1 s2 = 1000).
Proof.
  intros HL HN L c.
  destruct (ceil_div_spec L N HL ltac:(lia)) as [Hc0 Hc].
  set (K := Z.to_nat N).
  set (sh := flat_map (fun j => [EvOpenBam bam; EvOpenFasta ref;
                                 EvSpawn chr (j * c) ((j + 1) * c + 1000) json_out])
                      (map Z.of_nat (seq 0 K))).
  exists ([EvOpenFasta ref; EvChrLength chr] ++ sh)%list.
  assert (HR : spawned_ranges ([EvOpenFasta ref; EvChrLength chr] ++ sh)%list =
               map (fun j => (j * c, (j + 1) * c + 1000)) (map Z.of_nat (seq 0 K))).
  { unfold spawned_ranges at 1. rewrite flat_map_app. simpl.
    apply spawned_ranges_shards. }
  rewrite HR.
  split; [apply do_parallel_run; lia|].
  split; [simpl; auto|].
  split; [exact Hc|].
  split; [now rewrite !length_map, length_seq|].
  split.
  { intros i Hi. rewrite nth_error_shards.
    now replace (Nat.ltb i K) with true by (symmetry; apply Nat.ltb_lt; exact Hi). }
  split.
  - intros x Hx.
    destruct (Z.eq_dec c 0) as [H0|Hpos].
    + exists 0%nat, 0, 1000. rewrite nth_error_shards.
      replace (Nat.ltb 0 K) with true by (symmetry; apply Nat.ltb_lt; unfold K; lia).
      split; [rewrite H0; reflexivity | nia].
    + set (q := Z.min (x / c) (N - 1)).
      assert (Hq0 : 0 <= x / c) by (apply Z.div_pos; lia).
      pose proof (Z.div_mod x c Hpos) as Hdm.
      pose proof (Z.mod_pos_bound x c ltac:(lia)) as Hmb.
      exists (Z.to_nat q), (q * c), ((q + 1) * c + 1000).
      rewrite nth_error_shards.
      replace (Nat.ltb (Z.to_nat q) K) with true
        by (symmetry; apply Nat.ltb_lt; unfold K, q; lia).
      rewrite Z2Nat.id by (unfold q; lia).
      split; [reflexivity|].
      unfold q. destruct (Z.min_spec (x / c) (N - 1)) as [[H1 H2]|[H1 H2]];
        rewrite H2; nia.
  - intros i s1 e1 s2 e2 H1 H2. rewrite nth_error_shards in H1, H2.
    rewrite Nat2Z.inj_succ in H2. set (t := Z.of_nat i) in *.
    assert (Ht : 0 <= t) by (unfold t; lia).
    destruct (Nat.ltb i K); [|discriminate]. destruct (Nat.ltb (S i) K); [|discriminate].
    injection H1 as <- <-. injection H2 as <- <-.
    rewrite Z.min_l by nia. rewrite Z.max_r by nia. ring.
Qed.

Lemma do_parallel_shard_ranges_witness :
  0 <= (fun _ _ => 10) "r.fa" "3" /\ 1 <= 3 /\
  exists evs,
    do_parallel (fun _ _ => 10) "3" "a.bam" "r.fa" false "out/" 3
      (mkWorld (mkFS ["out/"] []) [])
    = inr (tt, mkWorld (mkFS ["out/"] []) ([] ++ evs)%list) /\
    length (spawned_ranges evs) = 3%nat /\
    nth_error (spawned_ranges evs) 2 = Some (8, 1012).
Proof.
  split; [lia|]. split; [lia|].
  destruct (do_parallel_shard_ranges (fun _ _ => 10) "3" "a.bam" "r.fa" false "out/" 3
              (mkWorld (mkFS ["out/"] []) []) ltac:(lia) ltac:(lia))
    as [evs [Hrun [_ [_ [Hlen [Hnth _]]]]]].
  exists evs. split; [exact Hrun|]. split; [exact Hlen|].
  exact (Hnth 2%nat ltac:(vm_compute; lia)).
Defined.

(** C7 (as amended): for a shard count [N <= 0] no range is computed and
    no worker is started: the reference is opened and the chromosome length
    read, then [N = 0] raises [ZeroDivisionError] (the state, and so the
    log of calls, ends with that read), while a negative [N] raises
    nothing and [do_parallel] returns normally at the same point. *)
Theorem do_parallel_nonpositive (chr_length : string -> string -> Z)
    (chr bam ref : string) (json_out : bool) (od : string) (N : Z) (w : World) :
  N <= 0 ->
  do_parallel chr_length chr bam ref json_out od N w =
  if Z.eqb N 0
  then inl (ZeroDivisionError,
            mkWorld (w_fs w) (w_log w ++ [EvOpenFasta ref; EvChrLength chr]))
  else inr (tt, mkWorld (w_fs w) (w_log w ++ [EvOpenFasta ref; EvChrLength chr])).
Proof.
  intros HN. unfold do_parallel, bind, emit. simpl.
  destruct (Z.eqb N 0).
  - unfold raise. now rewrite <- app_assoc.
  - replace (Z.to_nat N) with 0%nat by lia. simpl. unfold ret.
    now rewrite <- app_assoc.
Qed.

Lemma do_parallel_nonpositive_witness :
  do_parallel (fun _ _ => 1000) "3" "a.bam" "r.fa" false "out/" 0
    (mkWorld (mkFS ["out/"] []) [])
  = inl (ZeroDivisionError,
         mkWorld (mkFS ["out/"] []) ([] ++ [EvOpenFasta "r.fa"; EvChrLength "3"])%list) /\
  do_parallel (fun _ _ => 1000) "3" "a.bam" "r.fa" false "out/" (-1)
    (mkWorld (mkFS ["out/"] []) [])
  = inr (tt, mkWorld (mkFS ["out/"] []) ([] ++ [EvOpenFasta "r.fa"; EvChrLength "3"])%list).
Proof.
  split.
  - exact (do_parallel_nonpositive (fun _ _ => 1000) "3" "a.bam" "r.fa" false "out/" 0
             (mkWorld (mkFS ["out/"] []) []) ltac:(lia)).
  - exact (do_parallel_nonpositive (fun _ _ => 1000) "3" "a.bam" "r.fa" false "out/" (-1)
             (mkWorld (mkFS ["out/"] []) []) ltac:(lia)).
Defined.

(** C7, counterexample: with [--max_threads -1] the run reports no error;
    [do_parallel] reads the chromosome length and returns without starting
    any worker. *)
Lemma do_parallel_negative_no_error :
  do_parallel (fun _ _ => 1000) "3" "a.bam" "r.fa" false "out/" (-1)
    (mkWorld (mkFS ["out/"] []) [])
  = inr (tt, mkWorld (mkFS ["out/"] []) [EvOpenFasta "r.fa"; EvChrLength "3"]) /\
  ~ (exists err w', do_parallel (fun _ _ => 1000) "3" "a.bam" "r.fa" false "out/" (-1)
                      (mkWorld (mkFS ["out/"] []) []) = inl (err, w')).
Proof.
  split; [reflexivity|]. intros [err [w' H]]. vm_compute in H. discriminate.
Qed.

(** C9: for [N >= 1], [do_parallel] starts [N] workers and returns right
    after starting the last one: starting that worker is the last thing it
    does, and it never joins (waits on) a worker. *)
Theorem do_parallel_fire_and_forget (chr_length : string -> string -> Z)
    (chr bam ref : string) (json_out : bool) (od : string) (N : Z) (w : World) :
  1 <= N ->
  let c := ceil_div (chr_length ref chr) N in
  exists evs pre,
    do_parallel chr_length chr bam ref json_out od N w =
      inr (tt, mkWorld (w_fs w) (w_log w ++ evs)) /\
    length (spawned_ranges evs) = Z.to_nat N /\
    existsb is_join evs = false /\
    evs = (pre ++ [EvSpawn chr ((N - 1) * c) (N * c + 1000) json_out])%list.
Proof.
  intros HN c.
  set (f := fun j => [EvOpenBam bam; EvOpenFasta ref;
                      EvSpawn chr (j * c) ((j + 1) * c + 1000) json_out]).
  destruct (Z.to_nat N) as [|K] eqn:EK; [lia|].
  exists ([EvOpenFasta ref; EvChrLength chr] ++ flat_map f (map Z.of_nat (seq 0 (S K))))%list.
  exists ([EvOpenFasta ref; EvChrLength chr] ++ flat_map f (map Z.of_nat (seq 0 K))
          ++ [EvOpenBam bam; EvOpenFasta ref])%list.
  split; [rewrite <- EK; apply do_parallel_run; lia|].
  split.
  { unfold spawned_ranges at 1. rewrite flat_map_app. simpl.
    unfold f. rewrite spawned_ranges_shards, !length_map, length_seq. reflexivity. }
  split.
  { rewrite existsb_app. simpl. unfold f. apply shard_events_no_join. }
  rewrite seq_S, map_app, flat_map_app. simpl.
  unfold f at 2. simpl.
  replace (Z.of_nat K) with (N - 1) by lia. replace (N - 1 + 1) with N by lia.
  now rewrite <- !app_assoc.
Qed.

Lemma do_parallel_fire_and_forget_witness :
  1 <= 2 /\
  exists evs pre,
    do_parallel (fun _ _ => 10) "3" "a.bam" "r.fa" true "out/" 2
      (mkWorld (mkFS ["out/"] []) [])
      = inr (tt, mkWorld (mkFS ["out/"] []) ([] ++ evs)%list) /\
    length (spawned_ranges evs) = 2%nat /\
    existsb is_join evs = false /\
    evs = (pre ++ [EvSpawn "3" 5 1010 true])%list.
Proof.
  split; [lia|].
  exact (do_parallel_fire_and_forget (fun _ _ => 10) "3" "a.bam" "r.fa" true "out/" 2
           (mkWorld (mkFS ["out/"] []) []) ltac:(lia)).
Defined.

(** ** The [__main__] block *)

Lemma window_fetches_only (ws : list (string * Z * Z)) :
  forallb is_window_fetch
    (flat_map (fun '(c, a, b) => [EvGetSequence c a (b + 1); EvGetPileup c a (b + 1)]) ws)
  = true.
Proof. induction ws as [|[[c a] b] ws IH]; [reflexivity | exact IH]. Qed.

Section Entry.

Context {Read Pileup RefSeq CandList : Type}.
Variable get_reads : string -> string -> Z -> Z -> list Read.
Variable candidate_windows :
  string -> list Read -> string -> Z -> Z -> list (string * Z * Z).
Variable get_sequence : string -> string -> Z -> Z -> RefSeq.
Variable get_pileup : string -> string -> Z -> Z -> list Pileup.
Variable allele_candidates : string -> Z -> Z -> list Pileup -> RefSeq -> CandList.
Variable cand_obj : CandList -> pyobj.
Variable chr_length : string -> string -> Z.

Local Abbreviation main' :=
  (main get_reads candidate_windows get_sequence get_pileup allele_candidates
        cand_obj chr_length).

(** C8: with the test flag, a completed run opens the handlers of its two
    [View] objects and then processes exactly one region, [100000] to
    [200000] on the configured chromosome, synchronously: after that
    region's reads only the fetches of its windows follow, and
    [do_parallel] (which would first read the chromosome length and start
    workers) is never entered. *)
Theorem main_test_mode (F : Flags) (w w' : World) :
  f_test F = true ->
  main' F w = inr (tt, w') ->
  exists evs,
    w_log w' = (w_log w ++
                [EvOpenBam (f_bam F); EvOpenFasta (f_ref F);
                 EvOpenBam (f_bam F); EvOpenFasta (f_ref F);
                 EvGetReads (f_chromosome_name F) 100000 200000] ++ evs)%list /\
    forallb is_window_fetch evs = true.
Proof.
  intros Ht H. unfold main in H.
  apply bind_inr in H as [od [w1 [H1 H]]].
  apply bind_inr in H as [ex [w2 [H2 H]]].
  apply bind_inr in H as [u [w3 [H3 H]]].
  apply bind_inr in H as [v0 [w4 [H4 H]]].
  rewrite Ht in H.
  apply bind_inr in H as [v [w5 [H5 H]]].
  unfold test in H.
  apply bind_inr in H as [r [w6 [H6 H]]].
  unfold ret in H. injection H as <-.
  assert (E1 : w1 = w).
  { unfold normalize_output_dir in H1. destruct (last_char _); [|discriminate].
    unfold ret in H1. now injection H1 as _ <-. }
  assert (E2 : w2 = w1) by (unfold os_path_exists in H2; now injection H2 as _ <-).
  assert (E3 : w_log w3 = w_log w2).
  { destruct (negb ex); [|unfold ret in H3; now injection H3 as _ <-].
    apply os_mkdir_inr in H3. now subst. }
  rewrite View_init_run in H4, H5. injection H4 as _ <-. injection H5 as <- <-.
  apply parse_region_outcome in H6 as [Hlog _].
  eexists. split.
  - rewrite Hlog. simpl. rewrite E3, E2, E1, <- !app_assoc. reflexivity.
  - apply window_fetches_only.
Qed.

End Entry.

Lemma main_test_mode_witness :
  f_test (mkFlags "r.fa" "a.bam" "chr3" 5 true false "out") = true /\
  main (fun _ _ s _ => [s + 5; s + 50])
    (fun _ reads chr _ _ => map (fun p => (chr, p, p + 2)) reads)
    (fun _ _ a b => (a, b)) (fun _ _ a b => [a; b]) (fun _ a b _ _ => a + b)
    sample_cand (fun _ _ => 1000000)
    (mkFlags "r.fa" "a.bam" "chr3" 5 true false "out") (mkWorld (mkFS ["out/"] []) [])
  = inr (tt, mkWorld (mkFS ["out/"] [])
      [EvOpenBam "a.bam"; EvOpenFasta "r.fa"; EvOpenBam "a.bam"; EvOpenFasta "r.fa";
       EvGetReads "chr3" 100000 200000;
       EvGetSequence "chr3" 100005 100008; EvGetPileup "chr3" 100005 100008;
       EvGetSequence "chr3" 100050 100053; EvGetPileup "chr3" 100050 100053]) /\
  exists evs,
    [EvOpenBam "a.bam"; EvOpenFasta "r.fa"; EvOpenBam "a.bam"; EvOpenFasta "r.fa";
     EvGetReads "chr3" 100000 200000;
     EvGetSequence "chr3" 100005 100008; EvGetPileup "chr3" 100005 100008;
     EvGetSequence "chr3" 100050 100053; EvGetPileup "chr3" 100050 100053] =
    ([] ++ [EvOpenBam "a.bam"; EvOpenFasta "r.fa"; EvOpenBam "a.bam"; EvOpenFasta "r.fa";
            EvGetReads "chr3" 100000 200000] ++ evs)%list /\
    forallb is_window_fetch evs = true.
Proof.
  assert (Ht : f_test (mkFlags "r.fa" "a.bam" "chr3" 5 true false "out") = true)
    by reflexivity.
  assert (H : main (fun _ _ s _ => [s + 5; s + 50])
    (fun _ reads chr _ _ => map (fun p => (chr, p, p + 2)) reads)
    (fun _ _ a b => (a, b)) (fun _ _ a b => [a; b]) (fun _ a b _ _ => a + b)
    sample_cand (fun _ _ => 1000000)
    (mkFlags "r.fa" "a.bam" "chr3" 5 true false "out") (mkWorld (mkFS ["out/"] []) [])
  = inr (tt, mkWorld (mkFS ["out/"] [])
      [EvOpenBam "a.bam"; EvOpenFasta "r.fa"; EvOpenBam "a.bam"; EvOpenFasta "r.fa";
       EvGetReads "chr3" 100000 200000;
       EvGetSequence "chr3" 100005 100008; EvGetPileup "chr3" 100005 100008;
       EvGetSequence "chr3" 100050 100053; EvGetPileup "chr3" 100050 100053]))
    by (vm_compute; reflexivity).
  split; [exact Ht|]. split; [exact H|].
  exact (main_test_mode _ _ _ _ _ _ _ _ _ _ Ht H).
Defined.

(** ** Further properties of main.py *)

Lemma digit_ne (n : N) (c : ascii) :
  (N_of_ascii c < 48 \/ 57 < N_of_ascii c)%N ->
  Ascii.eqb (ascii_of_N (48 + N.modulo n 10)) c = false.
Proof.
  intros Hc. destruct (Ascii.eqb _ _) eqn:E; [|reflexivity].
  apply Ascii.eqb_eq in E.
  assert (Hlt : (N.modulo n 10 < 10)%N) by (apply N.mod_lt; discriminate).
  assert (Hn : N_of_ascii (ascii_of_N (48 + N.modulo n 10)) = (48 + N.modulo n 10)%N)
    by (apply N_ascii_embedding; lia).
  rewrite E in Hn. exfalso. remember (N.modulo n 10) as m. clear - Hn Hc Hlt. lia.
Qed.

Lemma digits_acc_no_char (c : ascii) (fuel : nat) (n : N) (acc : string) :
  (N_of_ascii c < 48 \/ 57 < N_of_ascii c)%N ->
  has_char c acc = false -> has_char c (digits_acc fuel n acc) = false.
Proof.
  intros Hc. revert n acc; induction fuel as [|f IH]; intros n acc H; simpl; [exact H|].
  assert (H' : has_char c (String (ascii_of_N (48 + N.modulo n 10)) acc) = false)
    by (unfold has_char; cbn [list_ascii_of_string existsb]; rewrite digit_ne by exact Hc; exact H).
  destruct (N.ltb n 10); [exact H' | now apply IH].
Qed.

Lemma str_Z_no_underscore (z : Z) : has_char "_" (str_Z z) = false.
Proof.
  assert (Hc : (N_of_ascii "_" < 48 \/ 57 < N_of_ascii "_")%N) by (right; reflexivity).
  destruct z as [|p|p]; unfold str_Z.
  - apply digits_acc_no_char; [exact Hc | reflexivity].
  - apply digits_acc_no_char; [exact Hc | reflexivity].
  - unfold has_char. rewrite list_ascii_of_string_app, existsb_app.
    apply orb_false_iff. split; [reflexivity|].
    apply digits_acc_no_char; [exact Hc | reflexivity].
Qed.

Lemma dval_digits_acc (f : nat) (n : N) (acc : string) :
  (n < 10 ^ N.of_nat f)%N -> dval 0 (digits_acc f n acc) = dval n acc.
Proof.
  revert n acc. induction f as [|f IH]; intros n acc Hn; simpl.
  - simpl in Hn. replace n with 0%N by lia. reflexivity.
  - assert (Hlt : (N.modulo n 10 < 10)%N) by (apply N.mod_lt; discriminate).
    assert (Hd : forall v, dval v (String (ascii_of_N (48 + N.modulo n 10)) acc)
                           = dval (10 * v + N.modulo n 10) acc).
    { intros v. cbn [dval]. rewrite N_ascii_embedding by lia. f_equal. remember (N.modulo n 10) as m. clear. lia. }
    rewrite Nat2N.inj_succ, N.pow_succ_r' in Hn.
    destruct (N.ltb n 10) eqn:E.
    + apply N.ltb_lt in E. rewrite Hd. f_equal. rewrite N.mod_small by exact E. lia.
    + apply N.ltb_ge in E. rewrite IH.
      * rewrite Hd. f_equal. pose proof (N.div_mod n 10 ltac:(discriminate)). lia.
      * apply N.Div0.div_lt_upper_bound. lia.
Qed.

Lemma pos_lt_pow10 (p : positive) : (Npos p < 10 ^ N.of_nat (Pos.size_nat p))%N.
Proof.
  induction p as [p IH|p IH|]; simpl Pos.size_nat; rewrite ?Nat2N.inj_succ, ?N.pow_succ_r';
    [| |reflexivity].
  - change (Npos (xI p)) with (2 * Npos p + 1)%N. lia.
  - change (Npos (xO p)) with (2 * Npos p)%N. lia.
Qed.

Lemma digits_acc_head (f : nat) (n : N) (acc : string) :
  head_not_minus acc -> head_not_minus (digits_acc f n acc).
Proof.
  revert n acc. induction f as [|f IH]; intros n acc H; simpl; [exact H|].
  assert (H' : head_not_minus (String (ascii_of_N (48 + N.modulo n 10)) acc)).
  { unfold head_not_minus. intros E. pose proof (digit_ne n "-" (or_introl eq_refl)) as D.
    rewrite E in D. discriminate. }
  destruct (N.ltb n 10); [exact H' | now apply IH].
Qed.

Lemma str_Z_inj (a b : Z) : str_Z a = str_Z b -> a = b.
Proof.
  assert (Hpos : forall z, 0 <= z -> dval 0 (str_Z z) = Z.to_N z).
  { intros z Hz. destruct z as [|p|p]; [reflexivity| |lia]. unfold str_Z.
    rewrite dval_digits_acc; [reflexivity|]. simpl N.size_nat.
    pose proof (pos_lt_pow10 p). rewrite Nat2N.inj_succ, N.pow_succ_r'. lia. }
  assert (Hneg : forall p, str_Z (Zneg p) = String "-" (digits_acc (S (Pos.size_nat p)) (Npos p) "")).
  { reflexivity. }
  assert (Hnn : forall z, 0 <= z -> head_not_minus (str_Z z)).
  { intros z Hz. destruct z as [|p|p]; [| |lia]; unfold str_Z; apply digits_acc_head; exact I. }
  assert (Hval : forall p, dval 0 (digits_acc (S (Pos.size_nat p)) (Npos p) "") = Npos p).
  { intros p. rewrite dval_digits_acc; [reflexivity|].
    pose proof (pos_lt_pow10 p). rewrite Nat2N.inj_succ, N.pow_succ_r'. lia. }
  intros E. destruct (Z_le_gt_dec 0 a) as [Ha|Ha]; destruct (Z_le_gt_dec 0 b) as [Hb|Hb].
  - pose proof (Hpos a Ha). pose proof (Hpos b Hb). rewrite E in *. lia.
  - destruct b as [|q|q]; try lia. pose proof (Hnn a Ha) as Hh. rewrite E, Hneg in Hh.
    exfalso. exact (Hh eq_refl).
  - destruct a as [|q|q]; try lia. pose proof (Hnn b Hb) as Hh. rewrite <- E, Hneg in Hh.
    exfalso. exact (Hh eq_refl).
  - destruct a as [|p|p]; try lia. destruct b as [|q|q]; try lia.
    rewrite !Hneg in E.
    pose proof (f_equal (fun s => match s with String _ r => dval 0 r | EmptyString => 0%N end) E)
      as Hp.
    cbv beta iota in Hp. rewrite !Hval in Hp. now injection Hp as ->.
Qed.

Lemma split_first (c : ascii) (a x b y : list ascii) :
  existsb (fun z => Ascii.eqb z c) a = false ->
  existsb (fun z => Ascii.eqb z c) b = false ->
  (a ++ c :: x = b ++ c :: y)%list -> a = b /\ x = y.
Proof.
  revert b. induction a as [|a0 a IH]; intros [|b0 b] Ha Hb E; simpl in *.
  - injection E as E. auto.
  - injection E as E0 E. subst. rewrite Ascii.eqb_refl in Hb. discriminate.
  - injection E as E0 E. subst. rewrite Ascii.eqb_refl in Ha. discriminate.
  - injection E as E0 E. subst.
    apply orb_false_iff in Ha as [_ Ha]. apply orb_false_iff in Hb as [_ Hb].
    destruct (IH b Ha Hb E) as [-> ->]. auto.
Qed.

Lemma split_last (c : ascii) (x a y b : list ascii) :
  existsb (fun z => Ascii.eqb z c) a = false ->
  existsb (fun z => Ascii.eqb z c) b = false ->
  (x ++ c :: a = y ++ c :: b)%list -> x = y /\ a = b.
Proof.
  intros Ha Hb E. apply (f_equal (@rev ascii)) in E.
  rewrite !rev_app_distr in E. simpl in E. rewrite <- !app_assoc in E. simpl in E.
  apply split_first in E as [E1 E2]; [| now rewrite existsb_rev | now rewrite existsb_rev].
  split.
  - rewrite <- (rev_involutive x), E2. apply rev_involutive.
  - rewrite <- (rev_involutive a), E1. apply rev_involutive.
Qed.

Lemma list_ascii_of_string_inj (a b : string) :
  list_ascii_of_string a = list_ascii_of_string b -> a = b.
Proof.
  intros E. rewrite <- (string_of_list_ascii_of_string a), E.
  apply string_of_list_ascii_of_string.
Qed.

Lemma app_cons_assoc {A} (x y z : list A) (c : A) :
  (x ++ c :: y ++ z = (x ++ c :: y) ++ z)%list.
Proof. now rewrite <- app_assoc. Qed.

Lemma json_path_inj (od chr1 chr2 : string) (s1 e1 s2 e2 : Z) :
  json_path od chr1 s1 e1 = json_path od chr2 s2 e2 ->
  chr1 = chr2 /\ s1 = s2 /\ e1 = e2.
Proof.
  intros E. apply (f_equal list_ascii_of_string) in E. unfold json_path in E.
  rewrite !list_ascii_of_string_app in E.
  do 4 apply app_inv_head in E.
  change (list_ascii_of_string "_") with ["_"%char] in E.
  rewrite !app_assoc in E. apply app_inv_tail in E.
  rewrite <- !app_assoc in E. simpl in E.
  rewrite !app_cons_assoc in E.
  apply split_last in E as [E Ee]; [| apply str_Z_no_underscore | apply str_Z_no_underscore].
  apply split_last in E as [Ec Es]; [| apply str_Z_no_underscore | apply str_Z_no_underscore].
  apply list_ascii_of_string_inj in Ec, Es, Ee.
  apply str_Z_inj in Es, Ee. auto.
Qed.


(** Two different workers started by [do_parallel] write their artifacts
    to the same path exactly when the chromosome length is 0: then every
    worker gets the range [(0, 1000)], otherwise all start positions
    differ. *)
Theorem do_parallel_artifact_collision (chr_length : string -> string -> Z)
    (chr bam ref : string) (json_out : bool) (od : string) (N : Z) (w : World) :
  0 <= chr_length ref chr -> 1 <= N ->
  exists evs,
    do_parallel chr_length chr bam ref json_out od N w =
      inr (tt, mkWorld (w_fs w) (w_log w ++ evs)) /\
    forall i j s1 e1 s2 e2, i <> j ->
      nth_error (spawned_ranges evs) i = Some (s1, e1) ->
      nth_error (spawned_ranges evs) j = Some (s2, e2) ->
      (json_path od chr s1 e1 = json_path od chr s2 e2 <-> chr_length ref chr = 0).
Proof.
  intros HL HN.
  set (L := chr_length ref chr). set (c := ceil_div L N).
  destruct (ceil_div_spec L N HL ltac:(lia)) as [Hc0 Hc].
  set (sh := flat_map (fun j => [EvOpenBam bam; EvOpenFasta ref;
                                 EvSpawn chr (j * c) ((j + 1) * c + 1000) json_out])
                      (map Z.of_nat (seq 0 (Z.to_nat N)))).
  exists ([EvOpenFasta ref; EvChrLength chr] ++ sh)%list.
  split; [apply do_parallel_run; lia|].
  assert (HR : spawned_ranges ([EvOpenFasta ref; EvChrLength chr] ++ sh)%list =
               map (fun j => (j * c, (j + 1) * c + 1000)) (map Z.of_nat (seq 0 (Z.to_nat N)))).
  { unfold spawned_ranges at 1. rewrite flat_map_app. simpl.
    apply spawned_ranges_shards. }
  rewrite HR. intros i j s1 e1 s2 e2 Hij H1 H2.
  rewrite nth_error_shards in H1, H2.
  destruct (Nat.ltb i (Z.to_nat N)); [|discriminate].
  destruct (Nat.ltb j (Z.to_nat N)); [|discriminate].
  injection H1 as <- <-. injection H2 as <- <-.
  split.
  - intros E. apply json_path_inj in E as [_ [Es _]].
    assert (Hc00 : c = 0).
    { destruct (Z.eq_dec c 0) as [|Hne]; [assumption|].
      exfalso. apply Hij. apply Nat2Z.inj. nia. }
    fold L. nia.
  - intros H0. fold L in H0.
    assert (Hc00 : c = 0) by (unfold c; rewrite H0; reflexivity).
    rewrite Hc00, !Z.mul_0_r. reflexivity.
Qed.

Lemma do_parallel_artifact_collision_witness :
  0 <= (fun _ _ => 10) "r.fa" "3" /\ 1 <= 3 /\
  exists evs,
    do_parallel (fun _ _ => 10) "3" "a.bam" "r.fa" true "out/" 3 (mkWorld (mkFS [] []) []) =
      inr (tt, mkWorld (mkFS [] []) ([] ++ evs)) /\
    forall i j s1 e1 s2 e2, i <> j ->
      nth_error (spawned_ranges evs) i = Some (s1, e1) ->
      nth_error (spawned_ranges evs) j = Some (s2, e2) ->
      (json_path "out/" "3" s1 e1 = json_path "out/" "3" s2 e2 <-> (fun _ _ => 10) "r.fa" "3" = 0).
Proof.
  assert (HL : 0 <= (fun _ _ => 10) "r.fa" "3") by (simpl; lia).
  assert (HN : 1 <= 3) by lia.
  split; [exact HL|]. split; [exact HN|].
  exact (do_parallel_artifact_collision (fun _ _ => 10) "3" "a.bam" "r.fa" true "out/" 3
           (mkWorld (mkFS [] []) []) HL HN).
Defined.

Lemma encode_PList (l : list pyobj) :
  encode (PList l) = match encode_list l with inl e => inl e | inr js => inr (JArr js) end.
Proof. reflexivity. Qed.

Lemma encode_list_Forall2 {A} (f : A -> pyobj) (l : list A) (js : list json) :
  encode_list (map f l) = inr js <-> Forall2 (fun c j => encode (f c) = inr j) l js.
Proof.
  revert js. induction l as [|x l IH]; intros js; simpl.
  - split; [intros H; injection H as <-; constructor | intros H; inversion H; reflexivity].
  - destruct (encode (f x)) as [e|j] eqn:Ex.
    + split; [discriminate | intros H; inversion H; congruence].
    + destruct (encode_list (map f l)) as [e|js'] eqn:El.
      * split; [discriminate|]. intros H. inversion H as [|? ? ? js0 _ H2]; subst.
        apply IH in H2. discriminate.
      * split.
        -- intros H. injection H as <-. constructor; [exact Ex | now apply IH].
        -- intros H. inversion H as [|? ? ? js0 H1 H2]; subst.
           apply IH in H2. rewrite Ex in H1. injection H1 as ->. injection H2 as ->.
           reflexivity.
Qed.

(** The document serialized for a region is an object with exactly the
    keys [all_candidates], [chromosome_name], [end_position],
    [start_position], in this order, [all_candidates] holding the encoded
    candidate lists in order; serialization succeeds exactly when every
    candidate list encodes. *)
Theorem encode_region_document {CandList} (cand_obj : CandList -> pyobj)
    (r : AllCandidatesInRegion) (doc : json) :
  encode (reprJSON cand_obj r) = inr doc <->
  exists js,
    Forall2 (fun c j => encode (cand_obj c) = inr j) (all_candidates r) js /\
    doc = JObj [("all_candidates", JArr js);
                ("chromosome_name", JStr (chromosome_name r));
                ("end_position", JInt (end_position r));
                ("start_position", JInt (start_position r))].
Proof.
  unfold reprJSON. cbn [encode]. fold (encode_list (map cand_obj (all_candidates r))).
  destruct (encode_list (map cand_obj (all_candidates r))) as [e|js] eqn:E.
  - split; [discriminate|]. intros [js [H _]].
    apply encode_list_Forall2 in H. congruence.
  - split.
    + intros H. injection H as <-. exists js. split; [now apply encode_list_Forall2|].
      reflexivity.
    + intros [js' [H ->]]. apply encode_list_Forall2 in H. rewrite E in H.
      injection H as ->. reflexivity.
Qed.


Lemma write_json_success_dirs {CandList} (cand_obj : CandList -> pyobj) (v : View)
    (s e : Z) (r : AllCandidatesInRegion) (w w' : World) (u : unit) :
  write_json cand_obj v s e r w = inr (u, w') ->
  let p := json_path (v_output_dir v) (v_chromosome_name v) s e in
  walk_error (w_fs w') p = None /\ dir_at (w_fs w') (canon p) = false.
Proof.
  unfold write_json. intros H.
  apply bind_inr in H as [ex [w1 [H1 H]]].
  apply bind_inr in H as [u1 [w2 [H2 H]]].
  apply bind_inr in H as [u2 [w3 [H3 H]]].
  apply bind_inr in H as [doc [w4 [H4 H]]].
  apply open_w_inr in H3 as [Hw [Hd ->]].
  unfold lift_err in H4. destruct (encode _); [discriminate|]. injection H4 as _ <-.
  unfold write_file in H. injection H as _ <-.
  split; [apply walk_error_none; apply walk_error_none in Hw; exact Hw | exact Hd].
Qed.



(** After a successful [write_json], writing the same region of the same
    view again succeeds, adds no directory, and the artifact then holds
    the second document (the file is truncated and rewritten). *)
Theorem write_json_rewrite {CandList} (cand_obj : CandList -> pyobj)
    (chr bam ref od : string) (s e : Z) (r1 r2 : AllCandidatesInRegion)
    (w w1 : World) (doc2 : json) :
  ends_slash od -> has_slash chr = false ->
  write_json cand_obj (mkView chr bam ref od) s e r1 w = inr (tt, w1) ->
  encode (reprJSON cand_obj r2) = inr doc2 ->
  exists w2,
    write_json cand_obj (mkView chr bam ref od) s e r2 w1 = inr (tt, w2) /\
    fs_dirs (w_fs w2) = fs_dirs (w_fs w1) /\
    file_contents (w_fs w2) (json_path od chr s e) = Some (Some doc2).
Proof.
  intros Hod Hchr H1 Henc.
  destruct (write_json_success_dirs cand_obj _ s e r1 w w1 tt H1) as [Hw Hnd].
  cbn [v_output_dir v_chromosome_name] in Hw, Hnd.
  assert (Hsub : is_dir (w_fs w1) (od ++ "json_output/") = true).
  { apply walk_error_none in Hw.
    rewrite (canon_json_path od chr s e Hod Hchr), walk_ok_snoc in Hw.
    apply andb_true_iff in Hw as [Hw Hd].
    destruct (canon_subdir od Hod) as [Hc _].
    apply is_dir_true. rewrite Hc.
    split; [apply ends_slash_nonempty, ends_slash_subdir | now split]. }
  destruct w1 as [fs1 log1].
  eexists. split; [exact (write_json_existing_steps cand_obj chr bam ref od s e r2 fs1 log1
                            doc2 Hod Hsub Hchr Hnd Henc)|].
  split; [reflexivity | apply file_contents_set].
Qed.

(** [write_json] does not create a missing output directory: when nothing
    is at [output_dir] but every directory on the way to it exists, the
    [os.mkdir] of its [json_output/] subdirectory raises, leaving the state
    as it was: [NotADirectoryError] when a regular file is at [output_dir],
    [FileNotFoundError] otherwise. *)
Theorem write_json_missing_output_dir {CandList} (cand_obj : CandList -> pyobj)
    (chr bam ref od : string) (s e : Z) (r : AllCandidatesInRegion)
    (fs : FS) (log : list event) :
  ends_slash od -> walk_error fs od = None -> dir_at fs (canon od) = false ->
  write_json cand_obj (mkView chr bam ref od) s e r (mkWorld fs log)
  = inl (if file_at fs (canon od) then NotADirectoryError (od ++ "json_output/")
         else FileNotFoundError (od ++ "json_output/"),
         mkWorld fs log).
Proof.
  intros Hod Hw Hd.
  assert (Hne : components od <> []).
  { intros E. unfold dir_at, canon in Hd. cbn [snd] in Hd. rewrite E in Hd. discriminate. }
  assert (Hsub : walk_error fs (od ++ "json_output/") =
                 Some (if file_at fs (canon od) then NotADirectoryError (od ++ "json_output/")
                       else FileNotFoundError (od ++ "json_output/"))).
  { unfold walk_error. rewrite path_abs_app, components_app by exact Hod.
    change (components "json_output/") with ["json_output"].
    rewrite proper_prefixes_snoc.
    destruct (components od) as [|c0 l0] eqn:Ec; [contradiction|]. rewrite <- Ec.
    unfold walk_error in Hw.
    destruct (find _ (proper_prefixes (components od))) eqn:Hf; [discriminate|].
    rewrite (find_app_none _ _ _ Hf). cbn [find].
    unfold canon in Hd |- *. rewrite Hd. reflexivity. }
  assert (Hex : path_exists fs (od ++ "json_output/") = false).
  { unfold path_exists. rewrite Hsub. apply andb_false_r. }
  unfold write_json, bind, os_path_exists, os_mkdir.
  cbn [v_output_dir v_chromosome_name w_fs w_log].
  rewrite Hex. cbn [negb]. rewrite subdir_nonempty. cbn [w_fs]. rewrite Hsub. reflexivity.
Qed.

Lemma last_char_app_slash (d : string) : last_char (d ++ "/") = Some slash.
Proof.
  unfold last_char. rewrite list_ascii_of_string_app, rev_app_distr. reflexivity.
Qed.

Lemma normalize_output_dir_run (d : string) (c : ascii) (w : World) :
  last_char d = Some c ->
  normalize_output_dir d w = inr (if Ascii.eqb c slash then d else d ++ "/", w).
Proof. intros H. unfold normalize_output_dir. now rewrite H. Qed.

Lemma normalized_ends_slash (d : string) (c : ascii) :
  last_char d = Some c -> ends_slash (if Ascii.eqb c slash then d else d ++ "/").
Proof.
  intros H. unfold ends_slash. destruct (Ascii.eqb c slash) eqn:E.
  - apply Ascii.eqb_eq in E. now subst.
  - apply last_char_app_slash.
Qed.

Lemma existsb_all_false {A} (f : A -> bool) (l : list A) :
  (forall x, In x l -> f x = false) -> existsb f l = false.
Proof.
  induction l as [|x l IH]; intros H; simpl; [reflexivity|].
  rewrite (H x (or_introl eq_refl)). apply IH. intros y Hy. apply H. now right.
Qed.

(** In a consistent file system nothing lies below a missing directory. *)
Lemma no_entry_below (fs : FS) (b : bool) (l ys : list string) :
  fs_wf fs -> dir_at fs (b, l) = false -> ys <> [] ->
  dir_at fs (b, l ++ ys)%list = false /\ file_at fs (b, l ++ ys)%list = false.
Proof.
  intros [Hd Hf] Hl Hys.
  assert (Hbelow : forall q, walk_error fs q = None ->
                     cpath_eqb (canon q) (b, l ++ ys)%list = false).
  { intros q Hq. destruct (cpath_eqb _ _) eqn:E; [|reflexivity].
    apply cpath_eqb_eq in E. apply walk_error_none in Hq. rewrite E in Hq.
    apply walk_ok_prefix in Hq; [congruence | exact Hys]. }
  split.
  - unfold dir_at. cbn [snd]. destruct (l ++ ys)%list eqn:El.
    + destruct ys; [contradiction|]. destruct l; discriminate.
    + apply existsb_all_false.
      intros d Hin. apply Hbelow. rewrite Forall_forall in Hd. exact (Hd d Hin).
  - unfold file_at. apply existsb_all_false. rewrite Forall_forall in Hf.
    intros f Hin. apply Hbelow, Hf, Hin.
Qed.

Lemma spawn_shards_fs (chr bam ref : string) (json_out : bool) (od : string)
    (c i : Z) (k : nat) (w w' : World) (u : unit) :
  spawn_shards chr bam ref json_out od c i k w = inr (u, w') ->
  w_fs w' = w_fs w /\ exists evs, w_log w' = (w_log w ++ evs)%list /\
    forallb (fun ev => negb (is_region_call ev)) evs = true.
Proof.
  revert i w. induction k as [|k IH]; intros i w H; simpl in H.
  - unfold ret in H. injection H as _ <-. split; [reflexivity|].
    exists []. now rewrite app_nil_r.
  - unfold bind at 1 in H. rewrite View_init_run in H.
    unfold bind, emit in H. simpl in H. apply IH in H as [Hf [evs [Hl Hr]]].
    simpl in Hf. split; [exact Hf|].
    exists ([EvOpenBam bam; EvOpenFasta ref;
             EvSpawn chr (i * c) ((i + 1) * c + 1000) json_out] ++ evs)%list.
    rewrite Hl. simpl. rewrite <- !app_assoc. split; [reflexivity | exact Hr].
Qed.

(** [do_parallel] leaves the file system untouched and makes no read,
    reference-sequence or pileup call itself: whatever it does for the
    regions is left to the worker processes it starts. *)
Theorem do_parallel_dispatch_only (chr_length : string -> string -> Z)
    (chr bam ref : string) (json_out : bool) (od : string) (N : Z) (w w' : World) :
  do_parallel chr_length chr bam ref json_out od N w = inr (tt, w') ->
  w_fs w' = w_fs w /\
  exists evs, w_log w' = (w_log w ++ evs)%list /\
    forallb (fun ev => negb (is_region_call ev)) evs = true.
Proof.
  unfold do_parallel, bind, emit. simpl. intros H.
  destruct (Z.eqb N 0); [discriminate|].
  apply spawn_shards_fs in H as [Hf [evs [Hl Hr]]]. simpl in Hf, Hl.
  split; [exact Hf|].
  exists ([EvOpenFasta ref; EvChrLength chr] ++ evs)%list.
  rewrite Hl, <- !app_assoc. split; [reflexivity | exact Hr].
Qed.

Lemma do_parallel_dispatch_only_witness :
  do_parallel (fun _ _ => 10) "3" "a.bam" "r.fa" true "out/" 2 (mkWorld (mkFS ["out/"] []) [])
  = inr (tt, mkWorld (mkFS ["out/"] [])
               [EvOpenFasta "r.fa"; EvChrLength "3";
                EvOpenBam "a.bam"; EvOpenFasta "r.fa"; EvSpawn "3" 0 1005 true;
                EvOpenBam "a.bam"; EvOpenFasta "r.fa"; EvSpawn "3" 5 1010 true]) /\
  w_fs (mkWorld (mkFS ["out/"] [])
               [EvOpenFasta "r.fa"; EvChrLength "3";
                EvOpenBam "a.bam"; EvOpenFasta "r.fa"; EvSpawn "3" 0 1005 true;
                EvOpenBam "a.bam"; EvOpenFasta "r.fa"; EvSpawn "3" 5 1010 true])
    = w_fs (mkWorld (mkFS ["out/"] []) []) /\
  exists evs,
    w_log (mkWorld (mkFS ["out/"] [])
               [EvOpenFasta "r.fa"; EvChrLength "3";
                EvOpenBam "a.bam"; EvOpenFasta "r.fa"; EvSpawn "3" 0 1005 true;
                EvOpenBam "a.bam"; EvOpenFasta "r.fa"; EvSpawn "3" 5 1010 true])
    = (w_log (mkWorld (mkFS ["out/"] []) []) ++ evs)%list /\
    forallb (fun ev => negb (is_region_call ev)) evs = true.
Proof.
  assert (H : do_parallel (fun _ _ => 10) "3" "a.bam" "r.fa" true "out/" 2
                (mkWorld (mkFS ["out/"] []) [])
  = inr (tt, mkWorld (mkFS ["out/"] [])
               [EvOpenFasta "r.fa"; EvChrLength "3";
                EvOpenBam "a.bam"; EvOpenFasta "r.fa"; EvSpawn "3" 0 1005 true;
                EvOpenBam "a.bam"; EvOpenFasta "r.fa"; EvSpawn "3" 5 1010 true]))
    by (vm_compute; reflexivity).
  split; [exact H|].
  exact (do_parallel_dispatch_only _ _ _ _ _ _ _ _ _ H).
Defined.

Section Extras.

Context {Read Pileup RefSeq CandList : Type}.
Variable get_reads : string -> string -> Z -> Z -> list Read.
Variable candidate_windows :
  string -> list Read -> string -> Z -> Z -> list (string * Z * Z).
Variable get_sequence : string -> string -> Z -> Z -> RefSeq.
Variable get_pileup : string -> string -> Z -> Z -> list Pileup.
Variable allele_candidates : string -> Z -> Z -> list Pileup -> RefSeq -> CandList.
Variable cand_obj : CandList -> pyobj.
Variable chr_length : string -> string -> Z.

Local Abbreviation parse_region' :=
  (parse_region get_reads candidate_windows get_sequence get_pileup
                allele_candidates cand_obj).
Local Abbreviation main' :=
  (main get_reads candidate_windows get_sequence get_pileup allele_candidates
        cand_obj chr_length).
Local Abbreviation windows_of v s e :=
  (candidate_windows (v_ref v) (get_reads (v_bam v) (v_chromosome_name v) s e)
                     (v_chromosome_name v) s e).
Local Abbreviation window_result v :=
  (fun '(c, a, b) =>
     allele_candidates c a b (get_pileup (v_bam v) c a (b + 1))
                       (get_sequence (v_ref v) c a (b + 1))).


(** An empty [--output_dir] makes [__main__] raise [IndexError]; a
    non-empty one without a trailing '/' behaves exactly as the same path
    with '/' appended. *)
Theorem main_output_dir_normalization (F : Flags) (w : World) :
  (f_output_dir F = "" -> main' F w = inl (IndexError, w)) /\
  (f_output_dir F <> "" -> last_char (f_output_dir F) <> Some slash ->
   main' F w =
   main' (mkFlags (f_ref F) (f_bam F) (f_chromosome_name F) (f_max_threads F)
                  (f_test F) (f_json F) (f_output_dir F ++ "/")) w).
Proof.
  split.
  - intros H. unfold main, bind, normalize_output_dir. now rewrite H.
  - intros Hne Hlast.
    destruct (last_char (f_output_dir F)) as [c|] eqn:Ec.
    + assert (Hc : Ascii.eqb c slash = false).
      { destruct (Ascii.eqb c slash) eqn:E; [|reflexivity].
        apply Ascii.eqb_eq in E. subst. contradiction. }
      assert (E1 := normalize_output_dir_run _ c w Ec). rewrite Hc in E1.
      assert (E2 := normalize_output_dir_run _ slash w (last_char_app_slash (f_output_dir F))).
      rewrite Ascii.eqb_refl in E2.
      unfold main. unfold bind at 1. rewrite E1.
      symmetry. unfold bind at 1. simpl f_output_dir. rewrite E2. reflexivity.
    + exfalso. apply Hne. unfold last_char in Ec.
      destruct (f_output_dir F) as [|x d]; [reflexivity|].
      simpl in Ec. destruct (rev (list_ascii_of_string d)); discriminate.
Qed.

(** [__main__] creates only the last level of the output directory: when
    resolving the (normalized) output directory fails on the way to it,
    [os.mkdir] raises that error ([FileNotFoundError] for a missing
    ancestor, [NotADirectoryError] for a regular file in its place) and
    nothing runs. *)
Theorem main_output_dir_parent_missing (F : Flags) (w : World) (c : ascii) (err : pyerr) :
  last_char (f_output_dir F) = Some c ->
  let od := if Ascii.eqb c slash then f_output_dir F else f_output_dir F ++ "/" in
  walk_error (w_fs w) od = Some err ->
  main' F w = inl (err, w).
Proof.
  intros Hc od Hw.
  assert (Hne : String.eqb od "" = false).
  { apply String.eqb_neq, ends_slash_nonempty. exact (normalized_ends_slash _ c Hc). }
  assert (Hex : path_exists (w_fs w) od = false).
  { unfold path_exists. rewrite Hw. apply andb_false_r. }
  unfold main, bind at 1. rewrite (normalize_output_dir_run _ c w Hc). fold od.
  unfold bind at 1, os_path_exists. rewrite Hex. cbn [negb].
  unfold bind at 1, os_mkdir. rewrite Hne, Hw. reflexivity.
Qed.

(** With the test and json flags, a first run into a consistent file
    system where nothing is at the output directory but every directory
    on the way to it exists creates the output directory and then its
    [json_output/] subdirectory, and stores the document of the region
    [100000]-[200000] at
    [output_dir + "json_output/Candidates_<chr>_100000_200000.json"]. *)
Theorem main_test_json_first_run (F : Flags) (w : World) (c : ascii) (doc : json) :
  f_test F = true -> f_json F = true ->
  last_char (f_output_dir F) = Some c ->
  let od := if Ascii.eqb c slash then f_output_dir F else f_output_dir F ++ "/" in
  let view := mkView (f_chromosome_name F) (f_bam F) (f_ref F) od in
  fs_wf (w_fs w) ->
  walk_error (w_fs w) od = None ->
  dir_at (w_fs w) (canon od) = false ->
  file_at (w_fs w) (canon od) = false ->
  has_slash (f_chromosome_name F) = false ->
  encode (reprJSON cand_obj
            (mkRegion (f_chromosome_name F) 100000 200000
                      (map (window_result view) (windows_of view 100000 200000))))
    = inr doc ->
  exists w',
    main' F w = inr (tt, w') /\
    fs_dirs (w_fs w') = (fs_dirs (w_fs w) ++ [od; (od ++ "json_output/")%string])%list /\
    file_contents (w_fs w') (json_path od (f_chromosome_name F) 100000 200000)
      = Some (Some doc).
Proof.
  intros Ht Hj Hc od view Hwf Hw Hd Hf Hchr Henc.
  assert (Hod : ends_slash od) by exact (normalized_ends_slash _ c Hc).
  assert (Hne : String.eqb od "" = false)
    by (apply String.eqb_neq, ends_slash_nonempty, Hod).
  assert (Hex : path_exists (w_fs w) od = false).
  { unfold path_exists. rewrite Hw, Hd, Hf. rewrite andb_false_r. apply andb_false_r. }
  set (fs1 := mkFS (fs_dirs (w_fs w) ++ [od]) (fs_files (w_fs w))).
  assert (Hmk : os_mkdir od w = inr (tt, mkWorld fs1 (w_log w))).
  { unfold os_mkdir. rewrite Hne, Hw, Hd, Hf. reflexivity. }
  destruct (canon_subdir od Hod) as [Hcs Hcs'].
  assert (Hcod : canon od = (path_abs od, components od)) by reflexivity.
  assert (Hdir1 : is_dir fs1 od = true).
  { apply is_dir_true. split; [now apply String.eqb_neq|]. split.
    - apply walk_ok_add_mono. now apply walk_error_none.
    - apply dir_at_add_self. }
  rewrite Hcod in Hd.
  assert (Hsub1 : is_dir fs1 (od ++ "json_output/") = false).
  { destruct (is_dir fs1 (od ++ "json_output/")) eqn:E; [|reflexivity].
    apply is_dir_true in E as [_ [_ E]]. unfold fs1 in E. rewrite Hcs in E.
    rewrite dir_at_add_other in E
      by (rewrite Hcod; apply cpath_eqb_longer; discriminate).
    rewrite (proj1 (no_entry_below _ _ _ ["json_output"] Hwf Hd ltac:(discriminate))) in E.
    discriminate. }
  assert (Hfr1 : file_at fs1 (canon (od ++ "json_output")) = false).
  { rewrite Hcs'. exact (proj2 (no_entry_below _ _ _ ["json_output"] Hwf Hd ltac:(discriminate))). }
  assert (Hnd1 : dir_at fs1 (canon (json_path od (f_chromosome_name F) 100000 200000)) = false).
  { rewrite (canon_json_path _ _ _ _ Hod Hchr), <- app_assoc. unfold fs1.
    rewrite dir_at_add_other
      by (rewrite Hcod; apply cpath_eqb_longer; discriminate).
    exact (proj1 (no_entry_below _ _ _ (["json_output"] ++ [artifact_name (f_chromosome_name F) 100000 200000])%list Hwf Hd ltac:(discriminate))). }
  eexists. split.
  - unfold main, bind at 1. rewrite (normalize_output_dir_run _ c w Hc). fold od.
    unfold bind at 1, os_path_exists. rewrite Hex. cbn [negb].
    unfold bind at 1. rewrite Hmk.
    unfold bind at 1. rewrite View_init_run. rewrite Ht.
    unfold bind at 1. rewrite View_init_run.
    unfold test, bind at 1. rewrite parse_region_run. rewrite Hj.
    unfold bind at 1. cbn [w_fs w_log].
    rewrite (write_json_fresh_steps cand_obj (f_chromosome_name F) (f_bam F) (f_ref F) od
               100000 200000 _ fs1 _ doc Hod Hdir1 Hsub1 Hfr1 Hchr Hnd1 Henc).
    reflexivity.
  - cbn [w_fs fs_dirs fs1]. split.
    + unfold fs1. cbn [fs_dirs]. rewrite <- app_assoc. reflexivity.
    + apply file_contents_set.
Qed.

End Extras.



Lemma write_json_rewrite_witness :
  ends_slash "out/" /\ has_slash "chr3" = false /\
  write_json sample_cand (mkView "chr3" "a.bam" "r.fa" "out/") 0 10
    (mkRegion "chr3" 0 10 [1]) (mkWorld (mkFS ["out/"] []) [])
  = inr (tt, mkWorld (mkFS ["out/"; "out/json_output/"]
             [("out/json_output/Candidates_chr3_0_10.json",
               Some (JObj [("all_candidates", JArr [JObj [("alt", JStr "A"); ("support", JInt 1)]]);
                           ("chromosome_name", JStr "chr3"); ("end_position", JInt 10);
                           ("start_position", JInt 0)]))]) []) /\
  encode (reprJSON sample_cand (mkRegion "chr3" 0 10 [])) =
    inr (JObj [("all_candidates", JArr []); ("chromosome_name", JStr "chr3");
               ("end_position", JInt 10); ("start_position", JInt 0)]) /\
  exists w2,
    write_json sample_cand (mkView "chr3" "a.bam" "r.fa" "out/") 0 10
      (mkRegion "chr3" 0 10 [])
      (mkWorld (mkFS ["out/"; "out/json_output/"]
             [("out/json_output/Candidates_chr3_0_10.json",
               Some (JObj [("all_candidates", JArr [JObj [("alt", JStr "A"); ("support", JInt 1)]]);
                           ("chromosome_name", JStr "chr3"); ("end_position", JInt 10);
                           ("start_position", JInt 0)]))]) []) = inr (tt, w2) /\
    fs_dirs (w_fs w2) = ["out/"; "out/json_output/"] /\
    file_contents (w_fs w2) (json_path "out/" "chr3" 0 10) =
      Some (Some (JObj [("all_candidates", JArr []); ("chromosome_name", JStr "chr3");
                        ("end_position", JInt 10); ("start_position", JInt 0)])).
Proof.
  assert (Hod : ends_slash "out/") by reflexivity.
  assert (Hchr : has_slash "chr3" = false) by reflexivity.
  assert (H1 : write_json sample_cand (mkView "chr3" "a.bam" "r.fa" "out/") 0 10
    (mkRegion "chr3" 0 10 [1]) (mkWorld (mkFS ["out/"] []) [])
  = inr (tt, mkWorld (mkFS ["out/"; "out/json_output/"]
             [("out/json_output/Candidates_chr3_0_10.json",
               Some (JObj [("all_candidates", JArr [JObj [("alt", JStr "A"); ("support", JInt 1)]]);
                           ("chromosome_name", JStr "chr3"); ("end_position", JInt 10);
                           ("start_position", JInt 0)]))]) [])) by (vm_compute; reflexivity).
  assert (Henc : encode (reprJSON sample_cand (mkRegion "chr3" 0 10 [])) =
    inr (JObj [("all_candidates", JArr []); ("chromosome_name", JStr "chr3");
               ("end_position", JInt 10); ("start_position", JInt 0)])) by reflexivity.
  split; [exact Hod|]. split; [exact Hchr|]. split; [exact H1|]. split; [exact Henc|].
  exact (write_json_rewrite sample_cand "chr3" "a.bam" "r.fa" "out/" 0 10 _ _ _ _ _
           Hod Hchr H1 Henc).
Defined.

Lemma write_json_missing_output_dir_witness :
  ends_slash "out/" /\ walk_error (mkFS [] []) "out/" = None /\
  dir_at (mkFS [] []) (canon "out/") = false /\
  write_json sample_cand (mkView "chr3" "a.bam" "r.fa" "out/") 0 10
    (mkRegion "chr3" 0 10 [1]) (mkWorld (mkFS [] []) [])
  = inl (FileNotFoundError ("out/" ++ "json_output/"), mkWorld (mkFS [] []) []) /\
  walk_error (mkFS [] [("out", None)]) "out/" = None /\
  dir_at (mkFS [] [("out", None)]) (canon "out/") = false /\
  write_json sample_cand (mkView "chr3" "a.bam" "r.fa" "out/") 0 10
    (mkRegion "chr3" 0 10 [1]) (mkWorld (mkFS [] [("out", None)]) [])
  = inl (NotADirectoryError ("out/" ++ "json_output/"),
         mkWorld (mkFS [] [("out", None)]) []).
Proof.
  assert (Hod : ends_slash "out/") by reflexivity.
  assert (Hw : walk_error (mkFS [] []) "out/" = None) by reflexivity.
  assert (Hd : dir_at (mkFS [] []) (canon "out/") = false) by reflexivity.
  assert (Hw' : walk_error (mkFS [] [("out", None)]) "out/" = None) by reflexivity.
  assert (Hd' : dir_at (mkFS [] [("out", None)]) (canon "out/") = false) by reflexivity.
  split; [exact Hod|]. split; [exact Hw|]. split; [exact Hd|]. split.
  - exact (write_json_missing_output_dir sample_cand "chr3" "a.bam" "r.fa" "out/" 0 10
             (mkRegion "chr3" 0 10 [1]) (mkFS [] []) [] Hod Hw Hd).
  - split; [exact Hw'|]. split; [exact Hd'|].
    exact (write_json_missing_output_dir sample_cand "chr3" "a.bam" "r.fa" "out/" 0 10
             (mkRegion "chr3" 0 10 [1]) (mkFS [] [("out", None)]) [] Hod Hw' Hd').
Defined.


Lemma main_output_dir_normalization_witness :
  "out" <> "" /\ last_char "out" <> Some slash /\
  main (fun _ _ s _ => [s + 5; s + 50])
    (fun _ reads chr _ _ => map (fun p => (chr, p, p + 2)) reads)
    (fun _ _ a b => (a, b)) (fun _ _ a b => [a; b]) (fun _ a b _ _ => a + b)
    sample_cand (fun _ _ => 1000000)
    (mkFlags "r.fa" "a.bam" "chr3" 5 false true "out") (mkWorld (mkFS [] []) [])
  = main (fun _ _ s _ => [s + 5; s + 50])
    (fun _ reads chr _ _ => map (fun p => (chr, p, p + 2)) reads)
    (fun _ _ a b => (a, b)) (fun _ _ a b => [a; b]) (fun _ a b _ _ => a + b)
    sample_cand (fun _ _ => 1000000)
    (mkFlags "r.fa" "a.bam" "chr3" 5 false true ("out" ++ "/")) (mkWorld (mkFS [] []) []).
Proof.
  assert (H1 : "out" <> "") by discriminate.
  assert (H2 : last_char "out" <> Some slash) by (vm_compute; discriminate).
  split; [exact H1|]. split; [exact H2|].
  pose proof (main_output_dir_normalization (fun _ _ s _ => [s + 5; s + 50])
    (fun _ reads chr _ _ => map (fun p => (chr, p, p + 2)) reads)
    (fun _ _ a b => (a, b)) (fun _ _ a b => [a; b]) (fun _ a b _ _ => a + b)
    sample_cand (fun _ _ => 1000000)
    (mkFlags "r.fa" "a.bam" "chr3" 5 false true "out") (mkWorld (mkFS [] []) []))
    as [_ H].
  exact (H H1 H2).
Defined.

Lemma main_output_dir_parent_missing_witness :
  last_char "a/b" = Some "b"%char /\
  walk_error (mkFS [] [("a", None)]) "a/b/" = Some (NotADirectoryError "a/b/") /\
  main (fun _ _ s _ => [s + 5; s + 50])
    (fun _ reads chr _ _ => map (fun p => (chr, p, p + 2)) reads)
    (fun _ _ a b => (a, b)) (fun _ _ a b => [a; b]) (fun _ a b _ _ => a + b)
    sample_cand (fun _ _ => 1000000)
    (mkFlags "r.fa" "a.bam" "chr3" 5 false true "a/b") (mkWorld (mkFS [] [("a", None)]) [])
  = inl (NotADirectoryError "a/b/", mkWorld (mkFS [] [("a", None)]) []).
Proof.
  assert (Hc : last_char "a/b" = Some "b"%char) by reflexivity.
  assert (Hw : walk_error (mkFS [] [("a", None)]) "a/b/" = Some (NotADirectoryError "a/b/"))
    by (vm_compute; reflexivity).
  split; [exact Hc|]. split; [exact Hw|].
  exact (main_output_dir_parent_missing (fun _ _ s _ => [s + 5; s + 50])
    (fun _ reads chr _ _ => map (fun p => (chr, p, p + 2)) reads)
    (fun _ _ a b => (a, b)) (fun _ _ a b => [a; b]) (fun _ a b _ _ => a + b)
    sample_cand (fun _ _ => 1000000)
    (mkFlags "r.fa" "a.bam" "chr3" 5 false true "a/b") (mkWorld (mkFS [] [("a", None)]) [])
    _ _ Hc Hw).
Defined.

Lemma main_test_json_first_run_witness :
  exists w',
    main (fun _ _ s _ => [s + 5; s + 50])
      (fun _ reads chr _ _ => map (fun p => (chr, p, p + 2)) reads)
      (fun _ _ a b => (a, b)) (fun _ _ a b => [a; b]) (fun _ a b _ _ => a + b)
      sample_cand (fun _ _ => 1000000)
      (mkFlags "r.fa" "a.bam" "chr3" 5 true true "out") (mkWorld (mkFS [] []) [])
    = inr (tt, w') /\
    fs_dirs (w_fs w') = ["out/"; "out/json_output/"] /\
    file_contents (w_fs w') (json_path "out/" "chr3" 100000 200000) =
      Some (Some (JObj [("all_candidates",
                         JArr [JObj [("alt", JStr "A"); ("support", JInt 200012)];
                               JObj [("alt", JStr "A"); ("support", JInt 200102)]]);
                        ("chromosome_name", JStr "chr3"); ("end_position", JInt 200000);
                        ("start_position", JInt 100000)])).
Proof.
  apply (main_test_json_first_run (fun _ _ s _ => [s + 5; s + 50])
      (fun _ reads chr _ _ => map (fun p => (chr, p, p + 2)) reads)
      (fun _ _ a b => (a, b)) (fun _ _ a b => [a; b]) (fun _ a b _ _ => a + b)
      sample_cand (fun _ _ => 1000000)
      (mkFlags "r.fa" "a.bam" "chr3" 5 true true "out") (mkWorld (mkFS [] []) []) "t"%char).
  - reflexivity.
  - reflexivity.
  - reflexivity.
  - split; constructor.
  - reflexivity.
  - reflexivity.
  - reflexivity.
  - reflexivity.
  - vm_compute. reflexivity.
Defined.
